(** * slurm_mcp: command construction and SSH session lifecycle

    A shallow embedding of [slurm_mcp/ssh_client.py], [slurm_mcp/slurm_commands.py]
    and [slurm_mcp/server.py].

    Text is a [string] whose characters stand for code points below 256.
    [Optional[str]] is [option string].  The paramiko library and the process
    environment are outside the repository: they are a [Host] record of
    oracles, and every call into paramiko is recorded in a log of transport
    events, so that "no network I/O" is a statement about that log.  Python
    objects live in a store indexed by addresses, module globals are fields
    of the process state, and exceptions are the [Raise] results of a
    state-and-error monad.  Calls to [logger] have no effect on any value
    the program computes and are left out. *)

From Stdlib Require Import String Ascii List ZArith Bool Arith Lia.
Import ListNotations.
Open Scope string_scope.

(** ** Python strings *)

Module Py.

(** Truth value of an [Optional[str]]: [None] and the empty string are false. *)
Definition truthy (o : option string) : bool :=
  match o with
  | Some (String _ _) => true
  | _ => false
  end.

(** [if o: then_(o) else: else_] *)
Definition if_truthy {A} (o : option string) (then_ : string -> A) (else_ : A) : A :=
  match o with
  | Some (String c s) => then_ (String c s)
  | _ => else_
  end.

(** The double-quote character, as a one-character string. *)
Definition dquote : string := String "034"%char EmptyString.

(** [sep.join(l)] *)
Definition join (sep : string) (l : list string) : string := String.concat sep l.

(** [l.extend(more)] *)
Definition extend (l more : list string) : list string := (l ++ more)%list.

(** [str.isspace] on one character, for code points below 256. *)
Definition isspace (c : ascii) : bool :=
  let n := nat_of_ascii c in
  (((9 <=? n) && (n <=? 13)) || ((28 <=? n) && (n <=? 32)) || (n =? 133) || (n =? 160))%nat.

Fixpoint lstrip (s : string) : string :=
  match s with
  | EmptyString => EmptyString
  | String c s' => if isspace c then lstrip s' else s
  end.

Fixpoint rstrip (s : string) : string :=
  match s with
  | EmptyString => EmptyString
  | String c s' =>
      match rstrip s' with
      | EmptyString => if isspace c then EmptyString else String c EmptyString
      | r => String c r
      end
  end.

(** [s.strip()] *)
Definition strip (s : string) : string := rstrip (lstrip s).

(** [s.rstrip('/')] *)
Fixpoint rstrip_slash (s : string) : string :=
  match s with
  | EmptyString => EmptyString
  | String c s' =>
      match rstrip_slash s' with
      | EmptyString => if Ascii.eqb c "/" then EmptyString else String c EmptyString
      | r => String c r
      end
  end.

(** [s.split(' ')]: the tokens delimited by single spaces. *)
Fixpoint split_space (s : string) : list string :=
  match s with
  | EmptyString => [EmptyString]
  | String c s' =>
      if Ascii.eqb c " " then EmptyString :: split_space s'
      else match split_space s' with
           | t :: ts => String c t :: ts
           | [] => [String c EmptyString]
           end
  end.

(** Every character of [s] is whitespace. *)
Fixpoint all_space (s : string) : bool :=
  match s with
  | EmptyString => true
  | String c s' => isspace c && all_space s'
  end.

Definition first_char (s : string) : option ascii :=
  match s with
  | EmptyString => None
  | String c _ => Some c
  end.

Fixpoint last_char (s : string) : option ascii :=
  match s with
  | EmptyString => None
  | String c EmptyString => Some c
  | String _ s' => last_char s'
  end.

Definition is_space_opt (o : option ascii) : bool :=
  match o with
  | Some c => isspace c
  | None => false
  end.

End Py.

(** ** slurm_commands.py: the command text of each [SlurmClient] method

    Each method builds [cmd], joins it with single spaces, and hands the text
    to [execute_command].  The text is computed here; the methods themselves
    are in [Module SlurmClient] below. *)

Module Command.
Import Py.

Definition squeue_default_format : string := "%.18i %.9P %.8j %.8u %.2t %.10M %.6D %R".
Definition sinfo_default_format : string := "%.20P %.5a %.10l %.6D %.6t %.14N".
Definition sacct_default_format : string :=
  "JobID,JobName,Partition,Account,AllocCPUS,State,ExitCode".

(** [cmd] of [SlurmClient.squeue] just before the join. *)
Definition squeue_cmd (user job_id partition format_str : option string) : list string :=
  let cmd := ["squeue"] in
  let cmd := if_truthy format_str
               (fun f => extend cmd ["-o"; dquote ++ f ++ dquote])
               (extend cmd ["-o"; dquote ++ squeue_default_format ++ dquote]) in
  let cmd := if_truthy user (fun u => extend cmd ["-u"; u]) cmd in
  let cmd := if_truthy job_id (fun j => extend cmd ["-j"; j]) cmd in
  let cmd := if_truthy partition (fun p => extend cmd ["-p"; p]) cmd in
  cmd.

Definition squeue (user job_id partition format_str : option string) : string :=
  join " " (squeue_cmd user job_id partition format_str).

(** [cmd] of [SlurmClient.sinfo] just before the join. *)
Definition sinfo_cmd (partition format_str nodes : option string) : list string :=
  let cmd := ["sinfo"] in
  let cmd := if_truthy format_str
               (fun f => extend cmd ["-o"; dquote ++ f ++ dquote])
               (extend cmd ["-o"; dquote ++ sinfo_default_format ++ dquote]) in
  let cmd := if_truthy partition (fun p => extend cmd ["-p"; p]) cmd in
  let cmd := if_truthy nodes (fun n => extend cmd ["-n"; n]) cmd in
  cmd.

Definition sinfo (partition format_str nodes : option string) : string :=
  join " " (sinfo_cmd partition format_str nodes).

(** [cmd] of [SlurmClient.sacct] just before the join. *)
Definition sacct_cmd (job_id user start_time end_time format_str : option string)
  : list string :=
  let cmd := ["sacct"] in
  let cmd := if_truthy format_str
               (fun f => extend cmd ["--format"; f])
               (extend cmd ["--format"; sacct_default_format]) in
  let cmd := if_truthy job_id (fun j => extend cmd ["-j"; j]) cmd in
  let cmd := if_truthy user (fun u => extend cmd ["-u"; u]) cmd in
  let cmd := if_truthy start_time (fun t => extend cmd ["-S"; t]) cmd in
  let cmd := if_truthy end_time (fun t => extend cmd ["-E"; t]) cmd in
  cmd.

Definition sacct (job_id user start_time end_time format_str : option string) : string :=
  join " " (sacct_cmd job_id user start_time end_time format_str).

Definition scontrol_show_job (job_id : string) : string :=
  "scontrol show job " ++ job_id.

Definition scontrol_show_node (node_name : option string) : string :=
  if_truthy node_name (fun n => "scontrol show node " ++ n) "scontrol show nodes".

Definition scancel (job_id : string) : string :=
  "scancel " ++ job_id.

End Command.

(** ** Exceptions, transport events and the host *)

Definition addr := nat.
Definition handle := nat.

(** The exceptions the three modules raise or let through; all of them are
    subclasses of [Exception].  [TransportError] stands for whatever paramiko
    or the socket layer raises. *)
Inductive exn : Type :=
| ValueError (msg : string)
| RuntimeError (msg : string)
| TransportError (msg : string).

(** [str(e)] *)
Definition exn_str (e : exn) : string :=
  match e with
  | ValueError msg => msg
  | RuntimeError msg => msg
  | TransportError msg => msg
  end.

(** [connect_kwargs] of [SSHClient.connect]; an absent key is [None]. *)
Record connect_kwargs : Type := {
  kw_hostname : string;
  kw_username : string;
  kw_port : Z;
  kw_timeout : Z;
  kw_key_filename : option string;
  kw_password : option string
}.

(** A call into a paramiko client object. *)
Inductive io_event : Type :=
| NetConnect (c : handle) (kw : connect_kwargs)
| NetExec (c : handle) (command : string) (timeout : Z)
| NetClose (c : handle).

(** What [exec_command], the two [read().decode()] and [recv_exit_status]
    deliver together: the decoded streams and the exit status, or an
    exception raised by one of them. *)
Inductive exec_reply : Type :=
| ExecDone (out err : string) (exit_status : Z)
| ExecRaises (msg : string).

(** Everything outside the repository.  The transport oracles see the events
    that came before the call.  [int_of_str] is the interpreter's [int] on a
    string, and [repr_of_str v] is what its error message prints for the
    rejected value [v]: the [repr] of the string, cut after 200 characters. *)
Record Host : Type := {
  getenv : string -> option string;
  pw_dir : option string;
  int_of_str : string -> option Z;
  repr_of_str : string -> string;
  net_connect : list io_event -> handle -> connect_kwargs -> option string;
  net_exec : list io_event -> handle -> string -> Z -> exec_reply
}.

(** ** Objects and process state *)

Record SSHClientObj : Type := {
  hostname : string;
  username : string;
  password : option string;
  key_filename : option string;
  port : Z;
  client : option handle
}.

Record SlurmClientObj : Type := {
  ssh_client : addr
}.

Record State : Type := {
  heap : addr -> SSHClientObj;
  next_addr : addr;
  next_handle : handle;
  net : list io_event;
  glob_ssh_client : option addr;
  glob_slurm_client : option SlurmClientObj
}.

Definition upd (hp : addr -> SSHClientObj) (a : addr) (o : SSHClientObj)
  : addr -> SSHClientObj :=
  fun a' => if Nat.eqb a' a then o else hp a'.

Definition set_client_field (o : SSHClientObj) (c : option handle) : SSHClientObj :=
  {| hostname := hostname o; username := username o; password := password o;
     key_filename := key_filename o; port := port o; client := c |}.

Definition blank_obj : SSHClientObj :=
  {| hostname := ""; username := ""; password := None; key_filename := None;
     port := 0; client := None |}.

(** The state of a process that has just imported [server]. *)
Definition initial_state : State :=
  {| heap := fun _ => blank_obj; next_addr := 0; next_handle := 0; net := [];
     glob_ssh_client := None; glob_slurm_client := None |}.

(** ** The state-and-exception monad *)

Inductive result (A : Type) : Type :=
| Ok (a : A)
| Raise (e : exn).
Arguments Ok {A} a.
Arguments Raise {A} e.

Definition M (A : Type) : Type := State -> result A * State.

Definition ret {A} (a : A) : M A := fun s => (Ok a, s).

Definition raise {A} (e : exn) : M A := fun s => (Raise e, s).

Definition bind {A B} (m : M A) (k : A -> M B) : M B :=
  fun s =>
    match m s with
    | (Ok a, s') => k a s'
    | (Raise e, s') => (Raise e, s')
    end.

(** [try: m  except Exception as e: handler(e)] *)
Definition try_except {A} (m : M A) (handler : exn -> M A) : M A :=
  fun s =>
    match m s with
    | (Ok a, s') => (Ok a, s')
    | (Raise e, s') => handler e s'
    end.

Definition lift {A} (r : result A) : M A := fun s => (r, s).

Notation "x <- m ;; k" := (bind m (fun x => k))
  (at level 61, m at next level, right associativity).
Notation "m ;;; k" := (bind m (fun _ => k))
  (at level 61, right associativity).

Definition get_obj (a : addr) : M SSHClientObj := fun s => (Ok (heap s a), s).

Definition set_client (a : addr) (c : option handle) : M unit :=
  fun s =>
    (Ok tt,
     {| heap := upd (heap s) a (set_client_field (heap s a) c);
        next_addr := next_addr s; next_handle := next_handle s; net := net s;
        glob_ssh_client := glob_ssh_client s;
        glob_slurm_client := glob_slurm_client s |}).

Definition record_event (ev : io_event) (s : State) : State :=
  {| heap := heap s; next_addr := next_addr s; next_handle := next_handle s;
     net := ev :: net s;
     glob_ssh_client := glob_ssh_client s;
     glob_slurm_client := glob_slurm_client s |}.

Definition get_glob_ssh_client : M (option addr) :=
  fun s => (Ok (glob_ssh_client s), s).

Definition get_glob_slurm_client : M (option SlurmClientObj) :=
  fun s => (Ok (glob_slurm_client s), s).

Definition set_glob_ssh_client (v : option addr) : M unit :=
  fun s =>
    (Ok tt,
     {| heap := heap s; next_addr := next_addr s; next_handle := next_handle s;
        net := net s; glob_ssh_client := v;
        glob_slurm_client := glob_slurm_client s |}).

Definition set_glob_slurm_client (v : option SlurmClientObj) : M unit :=
  fun s =>
    (Ok tt,
     {| heap := heap s; next_addr := next_addr s; next_handle := next_handle s;
        net := net s; glob_ssh_client := glob_ssh_client s;
        glob_slurm_client := v |}).

(** ** paramiko, as far as the repository calls it *)

Module Paramiko.

(** [paramiko.SSHClient()]: a new client object, nothing on the network. *)
Definition SSHClient : M handle :=
  fun s =>
    (Ok (next_handle s),
     {| heap := heap s; next_addr := next_addr s;
        next_handle := S (next_handle s); net := net s;
        glob_ssh_client := glob_ssh_client s;
        glob_slurm_client := glob_slurm_client s |}).

(** [c.connect] with the keyword arguments [kw]. *)
Definition connect (h : Host) (c : handle) (kw : connect_kwargs) : M unit :=
  fun s =>
    match net_connect h (net s) c kw with
    | None => (Ok tt, record_event (NetConnect c kw) s)
    | Some msg => (Raise (TransportError msg), record_event (NetConnect c kw) s)
    end.

(** [c.exec_command(command, timeout=timeout)] and reading its result. *)
Definition exec_command (h : Host) (c : handle) (command : string) (timeout : Z)
  : M (string * string * Z) :=
  fun s =>
    match net_exec h (net s) c command timeout with
    | ExecDone out err code =>
        (Ok (out, err, code), record_event (NetExec c command timeout) s)
    | ExecRaises msg =>
        (Raise (TransportError msg), record_event (NetExec c command timeout) s)
    end.

(** [c.close()]; paramiko documents no failure for it. *)
Definition close (c : handle) : M unit :=
  fun s => (Ok tt, record_event (NetClose c) s).

End Paramiko.

(** ** ssh_client.py *)

Module SSHClient.
Import Py.

Definition no_auth_message : string :=
  "Either password or key_filename must be provided".

Definition not_connected_message : string :=
  "SSH client not connected. Call connect() first.".

(** [SSHClient(hostname, username, password, key_filename, port)] *)
Definition init (hostname_ username_ : string) (password_ key_filename_ : option string)
    (port_ : Z) : M addr :=
  fun s =>
    let self := next_addr s in
    (Ok self,
     {| heap := upd (heap s) self
                  {| hostname := hostname_; username := username_;
                     password := password_; key_filename := key_filename_;
                     port := port_; client := None |};
        next_addr := S self; next_handle := next_handle s; net := net s;
        glob_ssh_client := glob_ssh_client s;
        glob_slurm_client := glob_slurm_client s |}).

(** The [connect_kwargs] that [connect] hands to paramiko, or the
    [ValueError] of its last branch. *)
Definition build_kwargs (o : SSHClientObj) : result connect_kwargs :=
  if truthy (key_filename o) then
    Ok {| kw_hostname := hostname o; kw_username := username o; kw_port := port o;
          kw_timeout := 30; kw_key_filename := key_filename o; kw_password := None |}
  else if truthy (password o) then
    Ok {| kw_hostname := hostname o; kw_username := username o; kw_port := port o;
          kw_timeout := 30; kw_key_filename := None; kw_password := password o |}
  else Raise (ValueError no_auth_message).

(** [self.connect()].  The new paramiko client is stored in [self.client]
    first; [set_missing_host_key_policy] only configures that object and is
    left out; the handler logs and raises the exception again. *)
Definition connect (h : Host) (self : addr) : M unit :=
  try_except
    (c <- Paramiko.SSHClient ;;
     set_client self (Some c) ;;;
     o <- get_obj self ;;
     connect_kwargs <- lift (build_kwargs o) ;;
     Paramiko.connect h c connect_kwargs)
    (fun e => raise e).

(** [self.disconnect()] *)
Definition disconnect (self : addr) : M unit :=
  o <- get_obj self ;;
  match client o with
  | Some c =>
      Paramiko.close c ;;;
      set_client self None
  | None => ret tt
  end.

(** [self.execute_command(command, timeout)] *)
Definition execute_command (h : Host) (self : addr) (command : string) (timeout : Z)
  : M (string * string * Z) :=
  o <- get_obj self ;;
  match client o with
  | None => raise (RuntimeError not_connected_message)
  | Some c =>
      try_except
        (r <- Paramiko.exec_command h c command timeout ;;
         let '(out, err, exit_code) := r in
         ret (strip out, strip err, exit_code))
        (fun e => raise e)
  end.

(** [self.__enter__()] *)
Definition __enter__ (h : Host) (self : addr) : M addr :=
  connect h self ;;;
  ret self.

(** [self.__exit__(exc_type, exc_val, exc_tb)]; it returns [None], so an
    exception of the block is not suppressed. *)
Definition __exit__ (self : addr) : M unit :=
  disconnect self.

End SSHClient.

(** ** slurm_commands.py *)

(** The dictionary every [SlurmClient] method returns. *)
Record CommandResult : Type := {
  command : string;
  stdout : string;
  stderr : string;
  exit_code : Z;
  success : bool
}.

Module SlurmClient.

(** The last lines of every method: run [command_] on the shared SSH
    client with the default timeout and pack the triple. *)
Definition run (h : Host) (self : SlurmClientObj) (command_ : string) : M CommandResult :=
  r <- SSHClient.execute_command h (ssh_client self) command_ 30 ;;
  let '(stdout_, stderr_, exit_code_) := r in
  ret {| command := command_; stdout := stdout_; stderr := stderr_;
         exit_code := exit_code_; success := Z.eqb exit_code_ 0 |}.

Definition squeue (h : Host) (self : SlurmClientObj)
    (user job_id partition format_str : option string) : M CommandResult :=
  run h self (Command.squeue user job_id partition format_str).

Definition sinfo (h : Host) (self : SlurmClientObj)
    (partition format_str nodes : option string) : M CommandResult :=
  run h self (Command.sinfo partition format_str nodes).

Definition sacct (h : Host) (self : SlurmClientObj)
    (job_id user start_time end_time format_str : option string) : M CommandResult :=
  run h self (Command.sacct job_id user start_time end_time format_str).

Definition scontrol_show_job (h : Host) (self : SlurmClientObj) (job_id : string)
  : M CommandResult :=
  run h self (Command.scontrol_show_job job_id).

Definition scontrol_show_node (h : Host) (self : SlurmClientObj)
    (node_name : option string) : M CommandResult :=
  run h self (Command.scontrol_show_node node_name).

Definition scancel (h : Host) (self : SlurmClientObj) (job_id : string)
  : M CommandResult :=
  run h self (Command.scancel job_id).

End SlurmClient.

(** ** server.py *)

(** Values stored in the dictionaries the tools return. *)
Inductive pyval : Type :=
| VStr (s : string)
| VInt (n : Z).

Definition dict : Type := list (string * pyval).

Fixpoint dict_get (d : dict) (key : string) : option pyval :=
  match d with
  | [] => None
  | (k, v) :: d' => if String.eqb k key then Some v else dict_get d' key
  end.

Definition dict_keys (d : dict) : list string := map fst d.

Record Config : Type := {
  cfg_hostname : string;
  cfg_username : string;
  cfg_password : option string;
  cfg_key_filename : option string;
  cfg_port : Z
}.

Module Server.
Import Py.

(** [os.getenv(key, default)] with a string default. *)
Definition getenv_or (h : Host) (key default : string) : string :=
  match getenv h key with
  | Some v => v
  | None => default
  end.

(** [os.path.expanduser] on a path that starts with a tilde and a slash:
    the home directory is [HOME], else the password database entry, and
    the path is returned unchanged when neither exists. *)
Definition expanduser (h : Host) (path : string) : string :=
  match path with
  | String "~" (String "/" _ as rest) =>
      let userhome :=
        match getenv h "HOME" with
        | Some v => Some v
        | None => pw_dir h
        end in
      match userhome with
      | Some home => rstrip_slash home ++ rest
      | None => path
      end
  | _ => path
  end.

(** [int(v)]; the message of its [ValueError] ends with the [repr] of [v]. *)
Definition int (h : Host) (v : string) : result Z :=
  match int_of_str h v with
  | Some n => Ok n
  | None =>
      Raise (ValueError ("invalid literal for int() with base 10: " ++ repr_of_str h v))
  end.

Definition get_connection_config (h : Host) : result Config :=
  match int h (getenv_or h "SLURM_PORT" "22") with
  | Ok port_ =>
      Ok {| cfg_hostname := getenv_or h "SLURM_HOST" "localhost";
            cfg_username := getenv_or h "SLURM_USER" (getenv_or h "USER" "user");
            cfg_password := getenv h "SLURM_PASSWORD";
            cfg_key_filename :=
              Some (getenv_or h "SLURM_KEY_FILE" (expanduser h "~/.ssh/id_rsa"));
            cfg_port := port_ |}
  | Raise e => Raise e
  end.

Definition ensure_connection (h : Host) : M SlurmClientObj :=
  ssh <- get_glob_ssh_client ;;
  slurm <- get_glob_slurm_client ;;
  match ssh, slurm with
  | Some _, Some sc => ret sc
  | _, _ =>
      config <- lift (get_connection_config h) ;;
      a <- SSHClient.init (cfg_hostname config) (cfg_username config)
             (cfg_password config) (cfg_key_filename config) (cfg_port config) ;;
      set_glob_ssh_client (Some a) ;;;
      SSHClient.connect h a ;;;
      let sc := {| ssh_client := a |} in
      set_glob_slurm_client (Some sc) ;;;
      ret sc
  end.

(** The two dictionaries built after a query method returned. *)
Definition query_reply (r : CommandResult) : dict :=
  if success r then
    [("status", VStr "success"); ("data", VStr (stdout r)); ("command", VStr (command r))]
  else
    [("status", VStr "error"); ("error", VStr (stderr r)); ("command", VStr (command r))].

(** The dictionary built by every [except Exception as e] of a tool. *)
Definition error_reply (e : exn) : dict :=
  [("status", VStr "error"); ("error", VStr (exn_str e))].

Definition squeue (h : Host) (user job_id partition format_str : option string) : M dict :=
  try_except
    (client_ <- ensure_connection h ;;
     r <- SlurmClient.squeue h client_ user job_id partition format_str ;;
     ret (query_reply r))
    (fun e => ret (error_reply e)).

Definition sinfo (h : Host) (partition format_str nodes : option string) : M dict :=
  try_except
    (client_ <- ensure_connection h ;;
     r <- SlurmClient.sinfo h client_ partition format_str nodes ;;
     ret (query_reply r))
    (fun e => ret (error_reply e)).

Definition sacct (h : Host) (job_id user start_time end_time format_str : option string)
  : M dict :=
  try_except
    (client_ <- ensure_connection h ;;
     r <- SlurmClient.sacct h client_ job_id user start_time end_time format_str ;;
     ret (query_reply r))
    (fun e => ret (error_reply e)).

Definition scontrol_show_job (h : Host) (job_id : string) : M dict :=
  try_except
    (client_ <- ensure_connection h ;;
     r <- SlurmClient.scontrol_show_job h client_ job_id ;;
     ret (query_reply r))
    (fun e => ret (error_reply e)).

Definition scontrol_show_node (h : Host) (node_name : option string) : M dict :=
  try_except
    (client_ <- ensure_connection h ;;
     r <- SlurmClient.scontrol_show_node h client_ node_name ;;
     ret (query_reply r))
    (fun e => ret (error_reply e)).

Definition scancel (h : Host) (job_id : string) : M dict :=
  try_except
    (client_ <- ensure_connection h ;;
     r <- SlurmClient.scancel h client_ job_id ;;
     if success r then
       ret [("status", VStr "success");
            ("message", VStr ("Job " ++ job_id ++ " cancelled successfully"));
            ("command", VStr (command r))]
     else
       ret [("status", VStr "error"); ("error", VStr (stderr r));
            ("command", VStr (command r))])
    (fun e => ret (error_reply e)).

Definition status_reply (status : string) (config : Config) : dict :=
  [("status", VStr status); ("hostname", VStr (cfg_hostname config));
   ("username", VStr (cfg_username config)); ("port", VInt (cfg_port config))].

Definition get_connection_status (h : Host) : M dict :=
  try_except
    (config <- lift (get_connection_config h) ;;
     ssh <- get_glob_ssh_client ;;
     match ssh with
     | Some a =>
         o <- get_obj a ;;
         match client o with
         | Some _ =>
             r <- SSHClient.execute_command h a "echo 'connection test'" 30 ;;
             let '(_, _, exit_code_) := r in
             if Z.eqb exit_code_ 0 then ret (status_reply "connected" config)
             else ret (status_reply "disconnected" config)
         | None => ret (status_reply "disconnected" config)
         end
     | None => ret (status_reply "disconnected" config)
     end)
    (fun e => ret (error_reply e)).

Definition disconnect : M dict :=
  try_except
    (ssh <- get_glob_ssh_client ;;
     match ssh with
     | Some a =>
         SSHClient.disconnect a ;;;
         set_glob_ssh_client None ;;;
         set_glob_slurm_client None
     | None => ret tt
     end ;;;
     ret [("status", VStr "success");
          ("message", VStr "Disconnected from SLURM cluster")])
    (fun e => ret (error_reply e)).

End Server.

(** The tools registered with [mcp.tool], with their arguments. *)
Inductive operation : Type :=
| OpSqueue (user job_id partition format_str : option string)
| OpSinfo (partition format_str nodes : option string)
| OpSacct (job_id user start_time end_time format_str : option string)
| OpScontrolShowJob (job_id : string)
| OpScontrolShowNode (node_name : option string)
| OpScancel (job_id : string)
| OpGetConnectionStatus
| OpDisconnect.

(** Calling a tool. *)
Definition call (h : Host) (op : operation) : M dict :=
  match op with
  | OpSqueue user job_id partition format_str =>
      Server.squeue h user job_id partition format_str
  | OpSinfo partition format_str nodes => Server.sinfo h partition format_str nodes
  | OpSacct job_id user start_time end_time format_str =>
      Server.sacct h job_id user start_time end_time format_str
  | OpScontrolShowJob job_id => Server.scontrol_show_job h job_id
  | OpScontrolShowNode node_name => Server.scontrol_show_node h node_name
  | OpScancel job_id => Server.scancel h job_id
  | OpGetConnectionStatus => Server.get_connection_status h
  | OpDisconnect => Server.disconnect
  end.

(** The tools that run one scheduler command: all but the last two. *)
Definition runs_command (op : operation) : bool :=
  match op with
  | OpGetConnectionStatus | OpDisconnect => false
  | _ => true
  end.

(** The five tools that surface the command's output as [data]. *)
Definition is_query (op : operation) : bool :=
  match op with
  | OpScancel _ | OpGetConnectionStatus | OpDisconnect => false
  | _ => true
  end.

(** The command text a tool sends. *)
Definition command_of (op : operation) : string :=
  match op with
  | OpSqueue user job_id partition format_str =>
      Command.squeue user job_id partition format_str
  | OpSinfo partition format_str nodes => Command.sinfo partition format_str nodes
  | OpSacct job_id user start_time end_time format_str =>
      Command.sacct job_id user start_time end_time format_str
  | OpScontrolShowJob job_id => Command.scontrol_show_job job_id
  | OpScontrolShowNode node_name => Command.scontrol_show_node node_name
  | OpScancel job_id => Command.scancel job_id
  | OpGetConnectionStatus => "echo 'connection test'"
  | OpDisconnect => ""
  end.

(** The [SlurmClient] method a command tool calls inside its [try]. *)
Definition client_call (h : Host) (op : operation) (sc : SlurmClientObj) : M CommandResult :=
  SlurmClient.run h sc (command_of op).

(** ** Reading a command text back

    The flags [squeue] can emit, and the tokens of a command text that are
    such flags. *)

Definition is_flag (t : string) : bool :=
  existsb (String.eqb t) ["-o"; "-u"; "-j"; "-p"].

Definition flag_tokens (command_ : string) : list string :=
  filter is_flag (Py.split_space command_).

(** No space-delimited token of the value is itself a flag. *)
Definition flag_free (o : option string) : bool :=
  match o with
  | Some v => forallb (fun t => negb (is_flag t)) (Py.split_space v)
  | None => true
  end.

(** The argument was passed, whatever its value. *)
Definition supplied (o : option string) : bool :=
  match o with
  | Some _ => true
  | None => false
  end.

(** The flags of a queue listing, in the documented order, for a given
    reading [present] of "the filter is there". *)
Definition expected_flags (present : option string -> bool)
    (user job_id partition : option string) : list string :=
  (["-o"] ++ (if present user then ["-u"] else [])
          ++ (if present job_id then ["-j"] else [])
          ++ (if present partition then ["-p"] else []))%list.

Fixpoint map_last {A} (g : A -> A) (l : list A) : list A :=
  match l with
  | [] => []
  | [x] => [g x]
  | x :: l' => x :: map_last g l'
  end.

(** The format value a builder uses: the caller's, or the default. *)
Definition effective_format (format_str : option string) (default : string) : string :=
  Py.if_truthy format_str (fun f => f) default.

(** [" -x value"] for a filter that is there, nothing otherwise. *)
Definition flag_suffix (flag : string) (o : option string) : string :=
  Py.if_truthy o (fun v => " " ++ flag ++ " " ++ v) "".

(** The text a filter adds to a command, read off the documentation of the
    builders: a space, the flag, a space and the value for a non-empty
    value, and nothing for [None] or the empty string. *)
Definition filter_text (flag : string) (o : option string) : string :=
  match o with
  | Some (String c v) => " " ++ flag ++ " " ++ String c v
  | _ => EmptyString
  end.

(** The [NetConnect] events of a log. *)
Definition is_connect (ev : io_event) : bool :=
  match ev with
  | NetConnect _ _ => true
  | _ => false
  end.

Definition count_connects (log : list io_event) : nat :=
  List.length (filter is_connect log).

(** The event asks for key authentication and carries no password. *)
Definition key_auth_only (ev : io_event) : bool :=
  match ev with
  | NetConnect _ kw =>
      Py.truthy (kw_key_filename kw)
      && match kw_password kw with None => true | Some _ => false end
  | _ => true
  end.

(** ** Simulated hosts, for running the model *)

Fixpoint env_of (l : list (string * string)) (key : string) : option string :=
  match l with
  | [] => None
  | (k, v) :: l' => if String.eqb k key then Some v else env_of l' key
  end.

Definition digit_value (c : ascii) : option Z :=
  let n := nat_of_ascii c in
  if ((48 <=? n) && (n <=? 57))%nat then Some (Z.of_nat (n - 48)) else None.

Fixpoint decimal_from (acc : Z) (s : string) : option Z :=
  match s with
  | EmptyString => Some acc
  | String c s' =>
      match digit_value c with
      | Some d => decimal_from (10 * acc + d) s'
      | None => None
      end
  end.

(** Plain decimal numerals, which is all the simulated environments use. *)
Definition decimal (s : string) : option Z :=
  match s with
  | EmptyString => None
  | _ => decimal_from 0 s
  end.

(** The [repr] of a short string of letters and digits, which is all the
    simulated environments put into [SLURM_PORT]. *)
Definition plain_repr (v : string) : string := "'" ++ v ++ "'".

(** Whether paramiko client [c] holds an open session after the events
    [log] (most recent first), on a server that accepts [accepts]. *)
Fixpoint session_open (accepts : connect_kwargs -> bool) (log : list io_event)
    (c : handle) : bool :=
  match log with
  | [] => false
  | NetConnect c' kw :: log' =>
      if Nat.eqb c' c then accepts kw else session_open accepts log' c
  | NetClose c' :: log' =>
      if Nat.eqb c' c then false else session_open accepts log' c
  | NetExec _ _ _ :: log' => session_open accepts log' c
  end.

(** A machine with environment [env] talking to a head node that accepts the
    connections [accepts] and answers a command on an open session with
    [reply]. *)
Definition sim_host (env : list (string * string)) (accepts : connect_kwargs -> bool)
    (reply : string -> exec_reply) : Host :=
  {| getenv := env_of env;
     pw_dir := Some "/home/user";
     int_of_str := decimal;
     repr_of_str := plain_repr;
     net_connect := fun _ _ kw => if accepts kw then None else Some "Authentication failed.";
     net_exec := fun log c command_ _ =>
                   if session_open accepts log c then reply command_
                   else ExecRaises "SSH session not active" |}.

Definition accept_all (kw : connect_kwargs) : bool := true.
Definition accept_none (kw : connect_kwargs) : bool := false.

(** A head node where every command prints a line and exits with [code]. *)
Definition echo_reply (code : Z) (command_ : string) : exec_reply :=
  ExecDone (" ran " ++ command_ ++ String "010" "") (String "010" " warning ") code.


Definition good_host : Host := sim_host [("SLURM_HOST", "cluster")] accept_all (echo_reply 0).
Definition failing_host : Host := sim_host [("SLURM_HOST", "cluster")] accept_all (echo_reply 1).
Definition rejecting_host : Host := sim_host [("SLURM_HOST", "cluster")] accept_none (echo_reply 0).
Definition keyless_host : Host :=
  sim_host [("SLURM_HOST", "cluster"); ("SLURM_KEY_FILE", "")] accept_all (echo_reply 0).
Definition keyless_password_host : Host :=
  sim_host [("SLURM_HOST", "cluster"); ("SLURM_KEY_FILE", ""); ("SLURM_PASSWORD", "secret")]
    accept_all (echo_reply 0).

(** ** States between the steps of [connect] and [ensure_connection] *)

(** After [self.client = paramiko.SSHClient()]. *)
Definition client_attached (self : addr) (s : State) : State :=
  snd ((c <- Paramiko.SSHClient ;; set_client self (Some c)) s).

(** After the global [ssh_client] was bound to a new [SSHClient] made from
    [config]. *)
Definition object_created (config : Config) (s : State) : State :=
  snd ((a <- SSHClient.init (cfg_hostname config) (cfg_username config)
               (cfg_password config) (cfg_key_filename config) (cfg_port config) ;;
        set_glob_ssh_client (Some a)) s).

(** The second entry of a command tool's reply when the command exited
    with status zero. *)
Definition success_field (op : operation) (out : string) : string * pyval :=
  match op with
  | OpScancel job_id => ("message", VStr ("Job " ++ job_id ++ " cancelled successfully"))
  | _ => ("data", VStr out)
  end.

(** The reply a command tool builds from the method's result. *)
Definition reply_of (op : operation) (r : CommandResult) : dict :=
  if success r then
    [("status", VStr "success"); success_field op (stdout r); ("command", VStr (command r))]
  else
    [("status", VStr "error"); ("error", VStr (stderr r)); ("command", VStr (command r))].

(** The session invariant of the server: a [SlurmClient] exists only
    together with the [SSHClient] it wraps, and that one holds a transport. *)
Definition session_invariant (s : State) : Prop :=
  match glob_slurm_client s with
  | Some sc =>
      glob_ssh_client s = Some (ssh_client sc)
      /\ client (heap s (ssh_client sc)) <> None
  | None => True
  end.

(** The states a server process goes through: tools called one after the
    other from the initial state. *)
Inductive reachable (h : Host) : State -> Prop :=
| reachable_initial : reachable h initial_state
| reachable_call (op : operation) (s : State) :
    reachable h s -> reachable h (snd (call h op s)).

(** ** What a computation adds to the transport log *)

(** Running [m] from any state adds events satisfying [P] to the log, and
    removes none. *)
Definition emits {A} (P : list io_event -> Prop) (m : M A) : Prop :=
  forall s, exists evs, net (snd (m s)) = (evs ++ net s)%list /\ P evs.

Definition no_connects (evs : list io_event) : Prop := count_connects evs = 0.

(** The object [SSHClient.init] builds from a configuration. *)
Definition config_object (config : Config) : SSHClientObj :=
  {| hostname := cfg_hostname config; username := cfg_username config;
     password := cfg_password config; key_filename := cfg_key_filename config;
     port := cfg_port config; client := None |}.

(** What [ensure_connection] adds: nothing, or one connection attempt with
    the arguments [connect] derives from the configuration of the
    environment. *)
Definition connect_events (h : Host) (evs : list io_event) : Prop :=
  evs = []
  \/ exists c config kw,
       Server.get_connection_config h = Ok config
       /\ SSHClient.build_kwargs (config_object config) = Ok kw
       /\ evs = [NetConnect c kw].

(** What a tool adds: the events of [ensure_connection] first, then calls
    on the session that are not connection attempts. *)
Definition op_events (h : Host) (evs : list io_event) : Prop :=
  exists later first,
    evs = (later ++ first)%list /\ no_connects later /\ connect_events h first.

(** The common shape of the six command tools: connect if needed, run the
    method, build the reply, and turn any exception into an error reply. *)
Definition command_tool (h : Host) (op : operation) : M dict :=
  try_except
    (client_ <- Server.ensure_connection h ;;
     r <- client_call h op client_ ;;
     ret (reply_of op r))
    (fun e => ret (Server.error_reply e)).

(** ** The [with] statement on an [SSHClient]

    [with self as c: body(c)]: enter, run the block, and leave through
    [__exit__] whether the block returned or raised; an exception of the
    block is raised again after [__exit__], and one of [__enter__] skips
    both the block and [__exit__]. *)
Definition with_client {A} (h : Host) (self : addr) (body : addr -> M A) : M A :=
  c <- SSHClient.__enter__ h self ;;
  fun s =>
    match body c s with
    | (Ok a, s') =>
        match SSHClient.__exit__ self s' with
        | (Ok _, s'') => (Ok a, s'')
        | (Raise e, s'') => (Raise e, s'')
        end
    | (Raise e, s') =>
        match SSHClient.__exit__ self s' with
        | (Ok _, s'') => (Raise e, s'')
        | (Raise e', s'') => (Raise e', s'')
        end
    end.

(** ** Sessions that are open according to the transport log *)

Fixpoint remove_handle (c : handle) (l : list handle) : list handle :=
  match l with
  | [] => []
  | c' :: l' => if Nat.eqb c' c then remove_handle c l' else c' :: remove_handle c l'
  end.

(** The paramiko clients whose [connect] succeeded and that were not closed
    since, read off the log (most recent event first); whether a [connect]
    succeeded is what the host answered to it. *)
Fixpoint open_sessions (h : Host) (log : list io_event) : list handle :=
  match log with
  | [] => []
  | NetConnect c kw :: log' =>
      match net_connect h log' c kw with
      | None => c :: open_sessions h log'
      | Some _ => open_sessions h log'
      end
  | NetExec _ _ _ :: log' => open_sessions h log'
  | NetClose c :: log' => remove_handle c (open_sessions h log')
  end.

(** The session invariant together with the log: the open sessions are
    exactly the transport of the current [SlurmClient], if there is one. *)
Definition session_accounting (h : Host) (s : State) : Prop :=
  match glob_slurm_client s with
  | Some sc =>
      glob_ssh_client s = Some (ssh_client sc)
      /\ exists c, client (heap s (ssh_client sc)) = Some c
                   /\ open_sessions h (net s) = [c]
  | None => open_sessions h (net s) = []
  end.

(** ** Commands on the transport log *)

Definition is_exec (ev : io_event) : bool :=
  match ev with
  | NetExec _ _ _ => true
  | _ => false
  end.

Definition is_close (ev : io_event) : bool :=
  match ev with
  | NetClose _ => true
  | _ => false
  end.

Definition count_execs (log : list io_event) : nat :=
  List.length (filter is_exec log).

Definition count_closes (log : list io_event) : nat :=
  List.length (filter is_close log).

(** The event is not a close, and if it runs a command, it runs [command_]
    with the default timeout. *)
Definition exec_ok (command_ : string) (ev : io_event) : bool :=
  match ev with
  | NetExec _ cmd t => String.eqb cmd command_ && Z.eqb t 30
  | NetConnect _ _ => true
  | NetClose _ => false
  end.

(** At most [n] commands, each of them [command_], and no close. *)
Definition runs_at_most (n : nat) (command_ : string) (evs : list io_event) : Prop :=
  forallb (exec_ok command_) evs = true /\ count_execs evs <= n.

(** ** Shapes of replies *)

(** The key lists a reply of a tool can have. *)
Definition reply_shapes (op : operation) : list (list string) :=
  match op with
  | OpScancel _ =>
      [["status"; "message"; "command"]; ["status"; "error"; "command"]; ["status"; "error"]]
  | OpGetConnectionStatus =>
      [["status"; "hostname"; "username"; "port"]; ["status"; "error"]]
  | OpDisconnect => [["status"; "message"]; ["status"; "error"]]
  | _ =>
      [["status"; "data"; "command"]; ["status"; "error"; "command"]; ["status"; "error"]]
  end.

(** The values the status entry of a reply can have. *)
Definition status_values (op : operation) : list string :=
  match op with
  | OpGetConnectionStatus => ["connected"; "disconnected"; "error"]
  | OpDisconnect => ["success"; "error"]
  | _ => ["success"; "error"]
  end.

(** ** Flags of the other builders *)

Definition is_flag_of (flags : list string) (t : string) : bool :=
  existsb (String.eqb t) flags.

Definition flag_tokens_of (flags : list string) (command_ : string) : list string :=
  filter (is_flag_of flags) (Py.split_space command_).

Definition flag_free_of (flags : list string) (o : option string) : bool :=
  match o with
  | Some v => forallb (fun t => negb (is_flag_of flags t)) (Py.split_space v)
  | None => true
  end.

Definition sinfo_flags : list string := ["-o"; "-p"; "-n"].
Definition sacct_flags : list string := ["--format"; "-j"; "-u"; "-S"; "-E"].

(** [[flag]] when the filter is there, nothing otherwise. *)
Definition flag_if (o : option string) (flag : string) : list string :=
  if Py.truthy o then [flag] else [].

(** ** The exit handler of [main]

    [atexit.register(lambda: disconnect() if ssh_client else None)]: what
    the registered function does when the process exits. *)
Definition exit_handler : M (option dict) :=
  ssh <- get_glob_ssh_client ;;
  match ssh with
  | Some _ =>
      d <- Server.disconnect ;;
      ret (Some d)
  | None => ret None
  end.

(** * Properties *)

(** ** Strings *)

Section StringFacts.
Import Py.

Lemma append_assoc (a b c : string) : (a ++ b) ++ c = a ++ (b ++ c).
Proof. induction a as [|x a IH]; simpl; [reflexivity | now rewrite IH]. Qed.

Lemma append_empty_r (a : string) : a ++ "" = a.
Proof. induction a as [|x a IH]; simpl; [reflexivity | now rewrite IH]. Qed.

Lemma join_cons (sep x y : string) (l : list string) :
  join sep (x :: y :: l) = x ++ sep ++ join sep (y :: l).
Proof. reflexivity. Qed.

(** Joining after an [extend] by a flag and its value. *)
Lemma join_extend_pair (cmd : list string) (flag v : string) :
  cmd <> [] ->
  join " " (extend cmd [flag; v]) = join " " cmd ++ " " ++ flag ++ " " ++ v.
Proof.
  unfold extend. induction cmd as [|x cmd IH]; intros Hne; [congruence|].
  destruct cmd as [|y cmd].
  - reflexivity.
  - change ((x :: y :: cmd) ++ [flag; v])%list
      with (x :: y :: (cmd ++ [flag; v]))%list.
    rewrite !join_cons.
    change (y :: (cmd ++ [flag; v]))%list with ((y :: cmd) ++ [flag; v])%list.
    rewrite IH by discriminate.
    now rewrite !append_assoc.
Qed.

Lemma extend_nonempty (cmd more : list string) : cmd <> [] -> extend cmd more <> [].
Proof. destruct cmd; [congruence | discriminate]. Qed.

Lemma if_truthy_nonempty (o : option string) (flag : string) (cmd : list string) :
  cmd <> [] -> if_truthy o (fun v => extend cmd [flag; v]) cmd <> [].
Proof.
  intros Hne. destruct o as [[|c v]|]; simpl; auto using extend_nonempty.
Qed.

(** One optional filter of a builder, seen on the joined text. *)
Lemma join_if_truthy (o : option string) (flag : string) (cmd : list string) :
  cmd <> [] ->
  join " " (if_truthy o (fun v => extend cmd [flag; v]) cmd)
  = join " " cmd ++ flag_suffix flag o.
Proof.
  intros Hne. unfold flag_suffix.
  destruct o as [[|c v]|]; simpl if_truthy;
    rewrite ?append_empty_r; auto using join_extend_pair.
Qed.

Lemma split_space_nonempty (s : string) : split_space s <> [].
Proof.
  induction s as [|c s IH]; simpl; [discriminate|].
  destruct (Ascii.eqb c " "); [discriminate|].
  destruct (split_space s); discriminate.
Qed.

(** Splitting distributes over a separating space. *)
Lemma split_space_app (a b : string) :
  split_space (a ++ " " ++ b) = (split_space a ++ split_space b)%list.
Proof.
  induction a as [|c a IH]; simpl.
  - reflexivity.
  - destruct (Ascii.eqb c " ").
    + simpl in IH. now rewrite IH.
    + simpl in IH. rewrite IH.
      pose proof (split_space_nonempty a) as Hne.
      destruct (split_space a); [congruence | reflexivity].
Qed.

(** Splitting a joined list gives the tokens of its elements, in order. *)
Lemma split_space_join (l : list string) :
  l <> [] -> split_space (join " " l) = flat_map split_space l.
Proof.
  induction l as [|x l IH]; intros Hne; [congruence|].
  destruct l as [|y l].
  - simpl. now rewrite app_nil_r.
  - rewrite join_cons, split_space_app, IH by discriminate. reflexivity.
Qed.

(** Appending a closing quote changes the last token only. *)
Lemma split_space_quote_end (f : string) :
  split_space (f ++ dquote) = map_last (fun t => t ++ dquote) (split_space f).
Proof.
  induction f as [|c f IH]; simpl.
  - reflexivity.
  - destruct (Ascii.eqb c " ").
    + rewrite IH. pose proof (split_space_nonempty f).
      destruct (split_space f); [congruence | reflexivity].
    + rewrite IH. pose proof (split_space_nonempty f) as Hne.
      destruct (split_space f) as [|t [|t' ts]]; [congruence | reflexivity | reflexivity].
Qed.

Lemma lstrip_split (s : string) :
  exists l, s = l ++ lstrip s /\ all_space l = true.
Proof.
  induction s as [|c s [l [Hs Hl]]]; simpl.
  - exists "". auto.
  - destruct (isspace c) eqn:Hc.
    + exists (String c l). simpl. rewrite Hc, Hl. split; [now rewrite <- Hs | reflexivity].
    + exists "". auto.
Qed.

Lemma rstrip_split (s : string) :
  exists r, s = rstrip s ++ r /\ all_space r = true.
Proof.
  induction s as [|c s [r [Hs Hr]]]; simpl.
  - exists "". auto.
  - destruct (rstrip s) as [|c' t] eqn:Ht.
    + simpl in Hs. subst r. destruct (isspace c) eqn:Hc.
      * exists (String c s). simpl. now rewrite Hc, Hr.
      * exists s. auto.
    + exists r. simpl. split; [now rewrite Hs at 1 | assumption].
Qed.

Lemma lstrip_first (s : string) : is_space_opt (first_char (lstrip s)) = false.
Proof.
  induction s as [|c s IH]; simpl; [reflexivity|].
  destruct (isspace c) eqn:Hc; [assumption | simpl; assumption].
Qed.

Lemma rstrip_last (s : string) : is_space_opt (last_char (rstrip s)) = false.
Proof.
  induction s as [|c s IH]; simpl; [reflexivity|].
  destruct (rstrip s) as [|c' t] eqn:Ht.
  - destruct (isspace c) eqn:Hc; simpl; [reflexivity | assumption].
  - simpl in *. assumption.
Qed.

Lemma rstrip_first (s : string) :
  is_space_opt (first_char s) = false -> is_space_opt (first_char (rstrip s)) = false.
Proof.
  destruct s as [|c s]; simpl; [reflexivity|].
  intros Hc. destruct (rstrip s); [rewrite Hc|]; simpl; assumption.
Qed.

(** What [strip] does: it removes a run of whitespace at each end and
    nothing else, and what is left neither starts nor ends with whitespace. *)
Lemma strip_spec (s : string) :
  (exists l r, s = l ++ strip s ++ r /\ all_space l = true /\ all_space r = true)
  /\ is_space_opt (first_char (strip s)) = false
  /\ is_space_opt (last_char (strip s)) = false.
Proof.
  unfold strip. split; [|split].
  - destruct (lstrip_split s) as [l [Hs Hl]].
    destruct (rstrip_split (lstrip s)) as [r [Ht Hr]].
    exists l, r. split; [|auto]. rewrite <- Ht. exact Hs.
  - apply rstrip_first, lstrip_first.
  - apply rstrip_last.
Qed.

End StringFacts.


(** ** Command construction *)

Section CommandFacts.
Import Py.

Lemma is_flag_inv (t : string) :
  is_flag t = true -> t = "-o" \/ t = "-u" \/ t = "-j" \/ t = "-p".
Proof.
  unfold is_flag. cbn [existsb]. rewrite !orb_true_iff, !String.eqb_eq.
  intuition discriminate.
Qed.

Lemma quoted_start_not_flag (t : string) : is_flag (String "034" t) = false.
Proof.
  destruct (is_flag (String "034" t)) eqn:E; [|reflexivity].
  apply is_flag_inv in E. simpl in E. intuition discriminate.
Qed.

Lemma quoted_end_not_flag (t : string) : is_flag (t ++ dquote) = false.
Proof.
  destruct (is_flag (t ++ dquote)) eqn:E; [|reflexivity].
  apply is_flag_inv in E.
  destruct t as [|a [|b [|c t]]]; simpl in E; intuition discriminate.
Qed.

Lemma filter_map_last_nil (g : string -> string) (l : list string) :
  (forall t, is_flag (g t) = false) ->
  filter is_flag l = [] -> filter is_flag (map_last g l) = [].
Proof.
  intros Hg. induction l as [|x l IH]; simpl; [reflexivity|].
  destruct (is_flag x) eqn:Hx; [discriminate|]. intros Hl.
  destruct l as [|y l].
  - simpl. now rewrite Hg.
  - cbn [filter]. rewrite Hx. apply IH, Hl.
Qed.

Lemma flag_free_filter (v : string) :
  flag_free (Some v) = true -> filter is_flag (split_space v) = [].
Proof.
  unfold flag_free. induction (split_space v) as [|t ts IH]; simpl; [reflexivity|].
  rewrite andb_true_iff, negb_true_iff. intros [Ht Hts]. rewrite Ht. auto.
Qed.

(** A format value in quotes contributes no flag token. *)
Lemma quoted_format_no_flag (f : string) :
  flag_free (Some f) = true ->
  filter is_flag (split_space (dquote ++ f ++ dquote)) = [].
Proof.
  intros Hf. apply flag_free_filter in Hf.
  change (dquote ++ f ++ dquote) with (String "034" (f ++ dquote)).
  cbn [split_space]. change (Ascii.eqb "034" " ") with false. cbv iota.
  rewrite split_space_quote_end.
  pose proof (filter_map_last_nil (fun t => t ++ dquote) _ quoted_end_not_flag Hf) as Hl.
  destruct (map_last (fun t => t ++ dquote) (split_space f)) as [|t ts]; [reflexivity|].
  cbn [filter] in *. rewrite (quoted_start_not_flag t).
  destruct (is_flag t); [discriminate | assumption].
Qed.

(** One optional filter of a builder, seen on the flag tokens. *)
Lemma flags_if_truthy (o : option string) (flag : string) (cmd : list string) :
  is_flag flag = true -> split_space flag = [flag] -> flag_free o = true ->
  filter is_flag (flat_map split_space (if_truthy o (fun v => extend cmd [flag; v]) cmd))
  = (filter is_flag (flat_map split_space cmd) ++ (if truthy o then [flag] else []))%list.
Proof.
  intros Hflag Hsplit Hfree.
  destruct o as [[|c v]|]; cbn [if_truthy truthy]; rewrite ?app_nil_r; try reflexivity.
  unfold extend. rewrite flat_map_app, filter_app. f_equal.
  cbn [flat_map]. rewrite Hsplit, app_nil_r, filter_app.
  rewrite (flag_free_filter _ Hfree). cbn [filter app]. now rewrite Hflag.
Qed.

Lemma squeue_cmd_head (format_str : option string) :
  flag_free format_str = true ->
  filter is_flag (flat_map split_space
    (if_truthy format_str
       (fun f => extend ["squeue"] ["-o"; dquote ++ f ++ dquote])
       (extend ["squeue"] ["-o"; dquote ++ Command.squeue_default_format ++ dquote])))
  = ["-o"].
Proof.
  intros Hf. destruct format_str as [[|c f]|]; cbn [if_truthy]; try reflexivity.
  unfold extend. cbn [app flat_map]. rewrite app_nil_r, !filter_app.
  rewrite (quoted_format_no_flag _ Hf). reflexivity.
Qed.

End CommandFacts.

(** C5.  With no filter and no format, the queue listing is exactly the
    base command, [-o], and the default columns between two double-quote
    characters (code point 34), and the accounting query is exactly the base
    command, [--format] and the default field list; nothing follows. *)
Theorem default_commands :
  Command.squeue None None None None
  = "squeue -o "
      ++ String (ascii_of_nat 34)
           ("%.18i %.9P %.8j %.8u %.2t %.10M %.6D %R"
              ++ String (ascii_of_nat 34) EmptyString)
  /\ String.length (Command.squeue None None None None) = 51%nat
  /\ String.get 10 (Command.squeue None None None None) = Some (ascii_of_nat 34)
  /\ String.get 50 (Command.squeue None None None None) = Some (ascii_of_nat 34)
  /\ Command.sacct None None None None None
     = "sacct --format JobID,JobName,Partition,Account,AllocCPUS,State,ExitCode".
Proof. repeat split; reflexivity. Qed.

(** The three builders with a format, as texts. *)
Lemma builder_texts
    (user job_id partition nodes start_time end_time format_str : option string) :
  Command.squeue user job_id partition format_str
  = "squeue -o " ++ Py.dquote
      ++ effective_format format_str Command.squeue_default_format ++ Py.dquote
      ++ flag_suffix "-u" user ++ flag_suffix "-j" job_id ++ flag_suffix "-p" partition
  /\ Command.sinfo partition format_str nodes
     = "sinfo -o " ++ Py.dquote
         ++ effective_format format_str Command.sinfo_default_format ++ Py.dquote
         ++ flag_suffix "-p" partition ++ flag_suffix "-n" nodes
  /\ Command.sacct job_id user start_time end_time format_str
     = "sacct --format "
         ++ effective_format format_str Command.sacct_default_format
         ++ flag_suffix "-j" job_id ++ flag_suffix "-u" user
         ++ flag_suffix "-S" start_time ++ flag_suffix "-E" end_time.
Proof.
  unfold Command.squeue, Command.squeue_cmd, Command.sinfo, Command.sinfo_cmd,
    Command.sacct, Command.sacct_cmd.
  assert (Hq : forall base dflt, base <> EmptyString ->
    Py.if_truthy format_str
      (fun f => Py.extend [base] ["-o"; Py.dquote ++ f ++ Py.dquote])
      (Py.extend [base] ["-o"; Py.dquote ++ dflt ++ Py.dquote]) <> []).
  { intros. destruct format_str as [[|c f]|]; discriminate. }
  assert (Hb : Py.if_truthy format_str
      (fun f => Py.extend ["sacct"] ["--format"; f])
      (Py.extend ["sacct"] ["--format"; Command.sacct_default_format]) <> []).
  { destruct format_str as [[|c f]|]; discriminate. }
  repeat split.
  - rewrite !join_if_truthy by (repeat apply if_truthy_nonempty; apply Hq; discriminate).
    rewrite !append_assoc.
    destruct format_str as [[|c f]|]; simpl; rewrite ?append_assoc; reflexivity.
  - rewrite !join_if_truthy by (repeat apply if_truthy_nonempty; apply Hq; discriminate).
    rewrite !append_assoc.
    destruct format_str as [[|c f]|]; simpl; rewrite ?append_assoc; reflexivity.
  - rewrite !join_if_truthy by (repeat apply if_truthy_nonempty; apply Hb).
    rewrite !append_assoc.
    destruct format_str as [[|c f]|]; simpl; rewrite ?append_assoc; reflexivity.
Qed.

Lemma flag_suffix_text (flag : string) (o : option string) :
  flag_suffix flag o = filter_text flag o.
Proof. destruct o as [[|c v]|]; reflexivity. Qed.

(** C10.  The queue listing and the cluster information command carry the
    format value between two double-quote characters (code point 34),
    directly after [-o] and a space; the accounting query carries it bare,
    directly after [--format] and a space.  The format value is the
    caller's when it is a non-empty string, and the default of the builder
    when the caller passes [None] or the empty string.  What follows the
    format is the text of the filters, which is empty or starts with a
    space. *)
Theorem format_quoting
    (user job_id partition nodes start_time end_time : option string)
    (c : ascii) (f : string) :
  let q := String (ascii_of_nat 34) EmptyString in
  let fmt := String c f in
  let squeue_rest :=
    filter_text "-u" user ++ filter_text "-j" job_id ++ filter_text "-p" partition in
  let sinfo_rest := filter_text "-p" partition ++ filter_text "-n" nodes in
  let sacct_rest :=
    filter_text "-j" job_id ++ filter_text "-u" user
      ++ filter_text "-S" start_time ++ filter_text "-E" end_time in
  Command.squeue user job_id partition (Some fmt)
    = "squeue -o " ++ q ++ fmt ++ q ++ squeue_rest
  /\ Command.squeue user job_id partition None
     = "squeue -o " ++ q ++ "%.18i %.9P %.8j %.8u %.2t %.10M %.6D %R" ++ q ++ squeue_rest
  /\ Command.squeue user job_id partition (Some EmptyString)
     = "squeue -o " ++ q ++ "%.18i %.9P %.8j %.8u %.2t %.10M %.6D %R" ++ q ++ squeue_rest
  /\ Command.sinfo partition (Some fmt) nodes
     = "sinfo -o " ++ q ++ fmt ++ q ++ sinfo_rest
  /\ Command.sinfo partition None nodes
     = "sinfo -o " ++ q ++ "%.20P %.5a %.10l %.6D %.6t %.14N" ++ q ++ sinfo_rest
  /\ Command.sinfo partition (Some EmptyString) nodes
     = "sinfo -o " ++ q ++ "%.20P %.5a %.10l %.6D %.6t %.14N" ++ q ++ sinfo_rest
  /\ Command.sacct job_id user start_time end_time (Some fmt)
     = "sacct --format " ++ fmt ++ sacct_rest
  /\ Command.sacct job_id user start_time end_time None
     = "sacct --format JobID,JobName,Partition,Account,AllocCPUS,State,ExitCode"
         ++ sacct_rest
  /\ Command.sacct job_id user start_time end_time (Some EmptyString)
     = "sacct --format JobID,JobName,Partition,Account,AllocCPUS,State,ExitCode"
         ++ sacct_rest.
Proof.
  cbv zeta.
  pose proof (builder_texts user job_id partition nodes start_time end_time
                (Some (String c f))) as [G1 [G2 G3]].
  pose proof (builder_texts user job_id partition nodes start_time end_time None)
    as [N1 [N2 N3]].
  pose proof (builder_texts user job_id partition nodes start_time end_time
                (Some EmptyString)) as [E1 [E2 E3]].
  rewrite !flag_suffix_text in *.
  repeat split; assumption.
Qed.

(** C2, as stated, fails: a filter passed as the empty string gets no flag,
    and a filter value that is itself a flag puts the flag of an absent
    filter into the command text. *)
Lemma squeue_flags_counterexample :
  flag_tokens (Command.squeue (Some "") None None None)
    <> expected_flags supplied (Some "") None None
  /\ flag_tokens (Command.squeue (Some "-p") None None None)
    <> expected_flags supplied (Some "-p") None None.
Proof. split; vm_compute; discriminate. Qed.

(** C2, amended.  Count a filter as given when it is a non-empty string, and
    let no given value contain a flag as one of its space-delimited tokens.
    Then the flag tokens of the queue listing are [-o] first, then [-u] if
    the user is given, then [-j] if the job id is given, then [-p] if the
    partition is given: each once, in this order, and no other. *)
Theorem squeue_flags (user job_id partition format_str : option string) :
  flag_free user = true -> flag_free job_id = true ->
  flag_free partition = true -> flag_free format_str = true ->
  flag_tokens (Command.squeue user job_id partition format_str)
  = expected_flags Py.truthy user job_id partition.
Proof.
  intros Hu Hj Hp Hf.
  unfold flag_tokens, Command.squeue, Command.squeue_cmd, expected_flags.
  rewrite split_space_join.
  - rewrite !flags_if_truthy by (assumption || reflexivity).
    rewrite (squeue_cmd_head _ Hf). now rewrite <- !app_assoc.
  - repeat apply if_truthy_nonempty. destruct format_str as [[|c f]|]; discriminate.
Qed.

Lemma squeue_flags_witness :
  flag_tokens (Command.squeue (Some "u") (Some "5") (Some "p") None)
  = ["-o"; "-u"; "-j"; "-p"].
Proof.
  exact (squeue_flags (Some "u") (Some "5") (Some "p") None
           eq_refl eq_refl eq_refl eq_refl).
Defined.


(** ** The monad *)

Lemma bind_ok {A B} (m : M A) (k : A -> M B) (s : State) (a : A) (s' : State) :
  m s = (Ok a, s') -> bind m k s = k a s'.
Proof. intros E. unfold bind. now rewrite E. Qed.

Lemma bind_raise {A B} (m : M A) (k : A -> M B) (s : State) (e : exn) (s' : State) :
  m s = (Raise e, s') -> bind m k s = (Raise e, s').
Proof. intros E. unfold bind. now rewrite E. Qed.

Lemma try_except_ok {A} (m : M A) (f : exn -> M A) (s : State) (a : A) (s' : State) :
  m s = (Ok a, s') -> try_except m f s = (Ok a, s').
Proof. intros E. unfold try_except. now rewrite E. Qed.



(** ** The SSH client *)

Section SSHClientFacts.
Variable h : Host.

Lemma upd_same (hp : addr -> SSHClientObj) (a : addr) (o : SSHClientObj) :
  upd hp a o a = o.
Proof. unfold upd. now rewrite Nat.eqb_refl. Qed.

Lemma client_attached_heap (self : addr) (s : State) :
  heap (client_attached self s) self
  = set_client_field (heap s self) (Some (next_handle s)).
Proof. apply upd_same. Qed.

Lemma client_attached_net (self : addr) (s : State) :
  net (client_attached self s) = net s.
Proof. reflexivity. Qed.

(** [connect], step by step. *)
Lemma connect_unfold (self : addr) (s : State) :
  SSHClient.connect h self s =
  match SSHClient.build_kwargs (heap s self) with
  | Raise e => (Raise e, client_attached self s)
  | Ok kw =>
      let s' := record_event (NetConnect (next_handle s) kw) (client_attached self s) in
      match net_connect h (net s) (next_handle s) kw with
      | None => (Ok tt, s')
      | Some msg => (Raise (TransportError msg), s')
      end
  end.
Proof.
  unfold SSHClient.connect, try_except, bind, get_obj, lift, raise, client_attached,
    Paramiko.SSHClient, set_client, Paramiko.connect.
  cbn [fst snd heap net next_handle]. rewrite upd_same.
  change (SSHClient.build_kwargs (set_client_field (heap s self) (Some (next_handle s))))
    with (SSHClient.build_kwargs (heap s self)).
  destruct (SSHClient.build_kwargs (heap s self)) as [kw|e]; [|reflexivity].
  cbn [net].
  destruct (net_connect h (net s) (next_handle s) kw); reflexivity.
Qed.

(** A failed [connect] leaves the new paramiko client in [self.client]. *)
Lemma connect_failure_keeps_client (self : addr) (s : State) (e : exn) :
  fst (SSHClient.connect h self s) = Raise e ->
  client (heap (snd (SSHClient.connect h self s)) self) = Some (next_handle s).
Proof.
  rewrite connect_unfold.
  destruct (SSHClient.build_kwargs (heap s self)) as [kw|e'];
    [destruct (net_connect h (net s) (next_handle s) kw)|];
    cbn [fst snd]; intros He; try discriminate;
    cbn [record_event heap]; rewrite client_attached_heap; reflexivity.
Qed.

(** [execute_command] on an object without a transport. *)
Lemma execute_not_connected (self : addr) (command_ : string) (timeout : Z) (s : State) :
  client (heap s self) = None ->
  SSHClient.execute_command h self command_ timeout s
  = (Raise (RuntimeError SSHClient.not_connected_message), s).
Proof.
  intros Hc. unfold SSHClient.execute_command, bind, get_obj. now rewrite Hc.
Qed.

(** [execute_command] on an object with a transport. *)
Lemma execute_unfold (self : addr) (command_ : string) (timeout : Z) (s : State) (c : handle) :
  client (heap s self) = Some c ->
  SSHClient.execute_command h self command_ timeout s =
  match net_exec h (net s) c command_ timeout with
  | ExecDone out err code =>
      (Ok (Py.strip out, Py.strip err, code), record_event (NetExec c command_ timeout) s)
  | ExecRaises msg =>
      (Raise (TransportError msg), record_event (NetExec c command_ timeout) s)
  end.
Proof.
  intros Hc. unfold SSHClient.execute_command, bind, get_obj. rewrite Hc.
  unfold try_except, bind, Paramiko.exec_command, ret, raise.
  destruct (net_exec h (net s) c command_ timeout); reflexivity.
Qed.

Lemma disconnect_unfold (self : addr) (s : State) :
  SSHClient.disconnect self s =
  match client (heap s self) with
  | Some c => set_client self None (record_event (NetClose c) s)
  | None => (Ok tt, s)
  end.
Proof.
  unfold SSHClient.disconnect, bind, get_obj.
  destruct (client (heap s self)); reflexivity.
Qed.

Lemma disconnect_clears (self : addr) (s : State) :
  fst (SSHClient.disconnect self s) = Ok tt
  /\ client (heap (snd (SSHClient.disconnect self s)) self) = None.
Proof.
  rewrite disconnect_unfold. destruct (client (heap s self)) eqn:Hc.
  - split; [reflexivity|]. cbn [set_client snd heap]. now rewrite upd_same.
  - auto.
Qed.

End SSHClientFacts.

(** C7.  An [SSHClient] whose key path and password are both missing (or
    empty) cannot connect: [connect] raises the [ValueError] that asks for a
    password or a key file, and the log of transport calls is what it was,
    so nothing went to the network. *)
Theorem connect_without_auth (h : Host) (self : addr) (s : State) :
  Py.truthy (key_filename (heap s self)) = false ->
  Py.truthy (password (heap s self)) = false ->
  fst (SSHClient.connect h self s) = Raise (ValueError SSHClient.no_auth_message)
  /\ net (snd (SSHClient.connect h self s)) = net s.
Proof.
  intros Hk Hp. rewrite connect_unfold. unfold SSHClient.build_kwargs.
  rewrite Hk, Hp. split; reflexivity.
Qed.

Lemma connect_without_auth_witness :
  let s0 := snd (SSHClient.init "cluster" "user" None None 22 initial_state) in
  fst (SSHClient.connect good_host 0 s0) = Raise (ValueError SSHClient.no_auth_message)
  /\ net (snd (SSHClient.connect good_host 0 s0)) = [].
Proof.
  exact (connect_without_auth good_host 0
           (snd (SSHClient.init "cluster" "user" None None 22 initial_state))
           eq_refl eq_refl).
Defined.

(** The disconnect tool, case by case. *)
Lemma server_disconnect_unfold (s : State) :
  Server.disconnect s =
  (Ok [("status", VStr "success"); ("message", VStr "Disconnected from SLURM cluster")],
   match glob_ssh_client s with
   | None => s
   | Some a =>
       snd (set_glob_slurm_client None
              (snd (set_glob_ssh_client None (snd (SSHClient.disconnect a s)))))
   end).
Proof.
  unfold Server.disconnect, try_except, bind, get_glob_ssh_client.
  destruct (glob_ssh_client s) as [a|]; [|reflexivity].
  rewrite disconnect_unfold. destruct (client (heap s a)); reflexivity.
Qed.

(** C8.  [disconnect] never raises and leaves the client without a
    transport: when the client holds one it is closed, with one close event
    for it and no other event, and when it holds none nothing happens.  So
    a second call in a row changes nothing and touches no transport, and on
    a client that was never connected the call changes nothing.  The
    [disconnect] tool of the server likewise always answers with its success
    message: when the global SSH client holds a transport the tool closes
    it, and it leaves the client without a transport and both globals
    cleared; when there is no global SSH client it changes nothing, so it
    is a no-op when called again or before any connection. *)
Theorem disconnect_idempotent (self : addr) (s : State)
    (hostname_ username_ : string) (password_ key_filename_ : option string) (port_ : Z) :
  let s1 := snd (SSHClient.disconnect self s) in
  let fresh := SSHClient.init hostname_ username_ password_ key_filename_ port_ s in
  let t1 := snd (Server.disconnect s) in
  let done := [("status", VStr "success");
               ("message", VStr "Disconnected from SLURM cluster")] in
  fst (SSHClient.disconnect self s) = Ok tt
  /\ client (heap s1 self) = None
  /\ SSHClient.disconnect self s1 = (Ok tt, s1)
  /\ (exists a, fst fresh = Ok a
                /\ SSHClient.disconnect a (snd fresh) = (Ok tt, snd fresh))
  /\ fst (Server.disconnect s) = Ok done
  /\ glob_ssh_client t1 = None
  /\ Server.disconnect t1 = (Ok done, t1)
  /\ Server.disconnect initial_state = (Ok done, initial_state)
  /\ net s1 = match client (heap s self) with
              | Some c => NetClose c :: net s
              | None => net s
              end
  /\ net t1 = match glob_ssh_client s with
              | Some a =>
                  match client (heap s a) with
                  | Some c => NetClose c :: net s
                  | None => net s
                  end
              | None => net s
              end
  /\ match glob_ssh_client s with
     | Some a => client (heap t1 a) = None /\ glob_slurm_client t1 = None
     | None => t1 = s
     end.
Proof.
  cbv zeta.
  destruct (disconnect_clears self s) as [Hr Hc].
  split; [exact Hr|]. split; [exact Hc|].
  split; [rewrite disconnect_unfold, Hc; reflexivity|].
  split.
  { exists (next_addr s). split; [reflexivity|].
    rewrite disconnect_unfold. cbn [SSHClient.init snd heap].
    now rewrite upd_same. }
  assert (Hg1 : glob_ssh_client (snd (Server.disconnect s)) = None).
  { rewrite server_disconnect_unfold. cbn [snd].
    destruct (glob_ssh_client s) as [a|] eqn:Hg; [reflexivity | exact Hg]. }
  split; [now rewrite server_disconnect_unfold|].
  split; [exact Hg1|].
  split.
  { rewrite (server_disconnect_unfold (snd (Server.disconnect s))), Hg1. reflexivity. }
  split; [reflexivity|].
  split.
  { rewrite disconnect_unfold. destruct (client (heap s self)); reflexivity. }
  rewrite server_disconnect_unfold. cbn [snd].
  destruct (glob_ssh_client s) as [a|]; [|split; reflexivity].
  rewrite disconnect_unfold.
  destruct (client (heap s a)) as [c|] eqn:E;
    cbn [set_glob_slurm_client set_glob_ssh_client set_client record_event snd net heap
         glob_slurm_client];
    [rewrite upd_same | rewrite E]; repeat split.
Qed.


(** ** The transport log *)

Section LogFacts.
Variable h : Host.

Lemma emits_ret {A} (P : list io_event -> Prop) (a : A) : P [] -> emits P (ret a).
Proof. intros HP s. exists []. auto. Qed.

Lemma emits_raise {A} (P : list io_event -> Prop) (e : exn) : P [] -> emits P (@raise A e).
Proof. intros HP s. exists []. auto. Qed.

Lemma emits_lift {A} (P : list io_event -> Prop) (r : result A) : P [] -> emits P (lift r).
Proof. intros HP s. exists []. auto. Qed.

Lemma emits_weaken {A} (P Q : list io_event -> Prop) (m : M A) :
  (forall evs, P evs -> Q evs) -> emits P m -> emits Q m.
Proof. intros HPQ Hm s. destruct (Hm s) as [evs [E HP]]. exists evs. auto. Qed.

(** Sequencing: the events of the second computation come on top of those of
    the first, and the second may not run at all. *)
Lemma emits_bind {A B} (P1 P2 P3 : list io_event -> Prop) (m : M A) (k : A -> M B) :
  emits P1 m -> (forall a, emits P2 (k a)) -> P2 [] ->
  (forall e1 e2, P1 e1 -> P2 e2 -> P3 (e2 ++ e1)%list) ->
  emits P3 (bind m k).
Proof.
  intros Hm Hk H0 Hc s. unfold bind.
  destruct (Hm s) as [e1 [E1 HP1]]. destruct (m s) as [[a|e] s1]; cbn [snd] in E1.
  - destruct (Hk a s1) as [e2 [E2 HP2]]. exists (e2 ++ e1)%list.
    rewrite E2, E1, app_assoc. split; [reflexivity | now apply Hc].
  - exists (([] : list io_event) ++ e1)%list.
    split; [exact E1 | now apply Hc].
Qed.

Lemma emits_try_except {A} (P1 P2 P3 : list io_event -> Prop) (m : M A) (f : exn -> M A) :
  emits P1 m -> (forall e, emits P2 (f e)) -> P2 [] ->
  (forall e1 e2, P1 e1 -> P2 e2 -> P3 (e2 ++ e1)%list) ->
  emits P3 (try_except m f).
Proof.
  intros Hm Hf H0 Hc s. unfold try_except.
  destruct (Hm s) as [e1 [E1 HP1]]. destruct (m s) as [[a|e] s1]; cbn [snd] in E1.
  - exists (([] : list io_event) ++ e1)%list.
    split; [exact E1 | now apply Hc].
  - destruct (Hf e s1) as [e2 [E2 HP2]]. exists (e2 ++ e1)%list.
    rewrite E2, E1, app_assoc. split; [reflexivity | now apply Hc].
Qed.

Lemma no_connects_nil : no_connects [].
Proof. reflexivity. Qed.

Lemma count_connects_app (e1 e2 : list io_event) :
  count_connects (e1 ++ e2) = count_connects e1 + count_connects e2.
Proof. unfold count_connects. now rewrite filter_app, length_app. Qed.

Lemma no_connects_app (e1 e2 : list io_event) :
  no_connects e1 -> no_connects e2 -> no_connects (e2 ++ e1).
Proof. unfold no_connects. rewrite count_connects_app. lia. Qed.



Lemma op_events_of_later (evs : list io_event) : no_connects evs -> op_events h evs.
Proof.
  intros Hn. exists evs, []. rewrite app_nil_r. repeat split; [assumption | now left].
Qed.

Lemma op_events_compose (e1 e2 : list io_event) :
  connect_events h e1 -> no_connects e2 -> op_events h (e2 ++ e1).
Proof. intros H1 H2. exists e2, e1. auto. Qed.

Lemma execute_emits (self : addr) (command_ : string) (timeout : Z) :
  emits no_connects (SSHClient.execute_command h self command_ timeout).
Proof.
  intros s. destruct (client (heap s self)) as [c|] eqn:Hc.
  - rewrite (execute_unfold h self command_ timeout s c Hc).
    exists [NetExec c command_ timeout].
    destruct (net_exec h (net s) c command_ timeout); split; reflexivity.
  - rewrite (execute_not_connected h self command_ timeout s Hc).
    exists []. split; reflexivity.
Qed.

Lemma run_emits (sc : SlurmClientObj) (command_ : string) :
  emits no_connects (SlurmClient.run h sc command_).
Proof.
  unfold SlurmClient.run.
  apply emits_bind with (P1 := no_connects) (P2 := no_connects);
    auto using execute_emits, no_connects_nil, no_connects_app.
  intros [[out err] code]. apply emits_ret, no_connects_nil.
Qed.

Lemma disconnect_emits (self : addr) : emits no_connects (SSHClient.disconnect self).
Proof.
  intros s. rewrite disconnect_unfold. destruct (client (heap s self)) as [c|].
  - exists [NetClose c]. split; reflexivity.
  - exists []. split; reflexivity.
Qed.

End LogFacts.


(** One step of showing that a computation makes no connection attempt. *)
Ltac emits_quiet :=
  match goal with
  | |- emits no_connects (ret _) => apply emits_ret, no_connects_nil
  | |- emits no_connects (lift _) => apply emits_lift, no_connects_nil
  | |- emits no_connects (SSHClient.execute_command _ _ _ _) => apply execute_emits
  | |- emits no_connects (SSHClient.disconnect _) => apply disconnect_emits
  | |- emits no_connects (bind _ _) =>
      apply emits_bind with (P1 := no_connects) (P2 := no_connects);
      [ | intros ? | apply no_connects_nil | apply no_connects_app ]
  | |- emits no_connects (try_except _ _) =>
      apply emits_try_except with (P1 := no_connects) (P2 := no_connects);
      [ | intros ? | apply no_connects_nil | apply no_connects_app ]
  | |- emits no_connects (match ?x with _ => _ end) => destruct x
  | |- emits no_connects _ => intros ?; exists []; split; reflexivity
  end.

(** ** The server *)

Section ServerFacts.
Variable h : Host.

(** With both globals set, [ensure_connection] returns the existing client
    and does nothing. *)
Lemma ensure_connection_reuse (s : State) (a : addr) (sc : SlurmClientObj) :
  glob_ssh_client s = Some a -> glob_slurm_client s = Some sc ->
  Server.ensure_connection h s = (Ok sc, s).
Proof.
  intros Ha Hsc.
  unfold Server.ensure_connection, bind, get_glob_ssh_client, get_glob_slurm_client.
  now rewrite Ha, Hsc.
Qed.

(** Otherwise it reads the configuration, binds the global [ssh_client] to
    a new object, connects it, and only then binds [slurm_client]. *)
Lemma ensure_connection_connect (s : State) :
  glob_ssh_client s = None \/ glob_slurm_client s = None ->
  Server.ensure_connection h s =
  match Server.get_connection_config h with
  | Raise e => (Raise e, s)
  | Ok config =>
      match SSHClient.connect h (next_addr s) (object_created config s) with
      | (Ok _, s2) =>
          (Ok {| ssh_client := next_addr s |},
           snd (set_glob_slurm_client (Some {| ssh_client := next_addr s |}) s2))
      | (Raise e, s2) => (Raise e, s2)
      end
  end.
Proof.
  intros Hnone.
  assert (E : Server.ensure_connection h s =
              (config <- lift (Server.get_connection_config h) ;;
               a <- SSHClient.init (cfg_hostname config) (cfg_username config)
                      (cfg_password config) (cfg_key_filename config) (cfg_port config) ;;
               set_glob_ssh_client (Some a) ;;;
               SSHClient.connect h a ;;;
               set_glob_slurm_client (Some {| ssh_client := a |}) ;;;
               ret {| ssh_client := a |}) s).
  { unfold Server.ensure_connection at 1.
    unfold bind at 1 2, get_glob_ssh_client, get_glob_slurm_client.
    destruct Hnone as [Hn|Hn]; rewrite Hn; [|destruct (glob_ssh_client s)]; reflexivity. }
  rewrite E. unfold lift.
  destruct (Server.get_connection_config h) as [config|e]; [|reflexivity].
  rewrite (bind_ok _ _ s config s) by reflexivity.
  rewrite (bind_ok _ _ s (next_addr s)
             (snd (SSHClient.init (cfg_hostname config) (cfg_username config)
                     (cfg_password config) (cfg_key_filename config)
                     (cfg_port config) s))) by reflexivity.
  rewrite (bind_ok _ _ _ tt (object_created config s)) by reflexivity.
  destruct (SSHClient.connect h (next_addr s) (object_created config s))
    as [[u|e] s2] eqn:Hc.
  - rewrite (bind_ok _ _ _ u s2 Hc). reflexivity.
  - rewrite (bind_raise _ _ _ e s2 Hc). reflexivity.
Qed.

Lemma object_created_heap (config : Config) (s : State) :
  heap (object_created config s) (next_addr s) = config_object config.
Proof. apply upd_same. Qed.

Lemma ensure_connection_connect_events (s : State) :
  glob_ssh_client s = None \/ glob_slurm_client s = None ->
  exists evs,
    net (snd (Server.ensure_connection h s)) = (evs ++ net s)%list
    /\ connect_events h evs.
Proof.
  intros Hnone. rewrite ensure_connection_connect by assumption.
  destruct (Server.get_connection_config h) as [config|e] eqn:Hcfg;
    [|exists []; split; [reflexivity | now left]].
  rewrite connect_unfold, object_created_heap.
  destruct (SSHClient.build_kwargs (config_object config)) as [kw|e] eqn:Hkw;
    [|exists []; split; [reflexivity | now left]].
  exists [NetConnect (next_handle (object_created config s)) kw].
  split.
  - cbv zeta.
    destruct (net_connect h (net (object_created config s))
                (next_handle (object_created config s)) kw); reflexivity.
  - right. exists (next_handle (object_created config s)), config, kw. auto.
Qed.

Lemma ensure_connection_emits : emits (connect_events h) (Server.ensure_connection h).
Proof.
  intros s.
  destruct (glob_ssh_client s) as [a|] eqn:Ha;
    [destruct (glob_slurm_client s) as [sc|] eqn:Hsc|];
    auto using ensure_connection_connect_events.
  rewrite (ensure_connection_reuse s a sc Ha Hsc). exists []. split; [reflexivity | now left].
Qed.

(** Each of the six command tools is an instance of [command_tool]. *)
Lemma call_command_tool (op : operation) (s : State) :
  runs_command op = true -> call h op s = command_tool h op s.
Proof.
  destruct op; intros Hop; try discriminate; try reflexivity.
  unfold call, Server.scancel, command_tool, try_except, bind.
  destruct (Server.ensure_connection h s) as [[sc|e] s1]; [|reflexivity].
  change (SlurmClient.scancel h sc job_id) with (client_call h (OpScancel job_id) sc).
  destruct (client_call h (OpScancel job_id) sc s1) as [[r|e] s2]; [|reflexivity].
  unfold reply_of. destruct (success r); reflexivity.
Qed.

Lemma command_tool_emits (op : operation) : emits (op_events h) (command_tool h op).
Proof.
  unfold command_tool.
  apply emits_try_except with (P1 := op_events h) (P2 := fun evs => evs = []).
  - apply emits_bind with (P1 := connect_events h) (P2 := no_connects);
      auto using ensure_connection_emits, no_connects_nil, op_events_compose.
    intros sc. unfold client_call.
    apply emits_bind with (P1 := no_connects) (P2 := no_connects);
      auto using run_emits, no_connects_nil, no_connects_app.
    intros r. apply emits_ret, no_connects_nil.
  - intros e. now apply emits_ret.
  - reflexivity.
  - intros e1 e2 H1 ->. exact H1.
Qed.

Lemma get_connection_status_emits : emits (op_events h) (Server.get_connection_status h).
Proof.
  apply emits_weaken with (P := no_connects); [apply op_events_of_later|].
  unfold Server.get_connection_status. repeat emits_quiet.
Qed.

Lemma server_disconnect_emits : emits (op_events h) Server.disconnect.
Proof.
  apply emits_weaken with (P := no_connects); [apply op_events_of_later|].
  unfold Server.disconnect. repeat emits_quiet.
Qed.

(** Every tool adds the events of at most one connection attempt, followed
    by calls on the session. *)
Lemma call_emits (op : operation) : emits (op_events h) (call h op).
Proof.
  destruct (runs_command op) eqn:Hop.
  - intros s. rewrite (call_command_tool op s Hop). apply command_tool_emits.
  - destruct op; try discriminate.
    + apply get_connection_status_emits.
    + apply server_disconnect_emits.
Qed.

End ServerFacts.


(** ** Replies of the tools *)

(** C1, as stated, fails for the cancel tool, which answers a zero exit
    status with a fixed message and drops the command's output, and for the
    status tool, whose reply has other keys. *)
Lemma reply_shape_counterexample :
  SSHClient.execute_command good_host 0 "scancel 12345" 30
      (snd (Server.ensure_connection good_host initial_state))
    = (Ok ("ran scancel 12345", "warning", 0%Z),
       record_event (NetExec 0 "scancel 12345" 30)
         (snd (Server.ensure_connection good_host initial_state)))
  /\ fst (call good_host (OpScancel "12345") initial_state)
     = Ok [("status", VStr "success");
           ("message", VStr "Job 12345 cancelled successfully");
           ("command", VStr "scancel 12345")]
  /\ fst (call good_host (OpScancel "12345") initial_state)
     <> Ok [("status", VStr "success");
            ("data", VStr "ran scancel 12345");
            ("command", VStr "scancel 12345")]
  /\ option_map dict_keys
       (match fst (call good_host OpGetConnectionStatus initial_state) with
        | Ok d => Some d
        | Raise _ => None
        end)
     = Some ["status"; "hostname"; "username"; "port"].
Proof. repeat split; try reflexivity. vm_compute. discriminate. Qed.

(** C1, amended.  Take one of the six tools that run a scheduler command,
    let the connection be there (or be made), and let the transport answer
    the tool's command with output, error text and an exit status.  On
    status zero the five query tools reply with status success, the output
    as data and the command text, and the cancel tool replies with status
    success, its fixed message and the command text.  On any other status
    all six reply with status error, the error text and the command text.
    Output and error text are the transport's, stripped of surrounding
    whitespace and otherwise unchanged. *)
Theorem command_reply (h : Host) (op : operation) (s s1 : State)
    (sc : SlurmClientObj) (c : handle) (out err : string) (code : Z) :
  runs_command op = true ->
  Server.ensure_connection h s = (Ok sc, s1) ->
  client (heap s1 (ssh_client sc)) = Some c ->
  net_exec h (net s1) c (command_of op) 30 = ExecDone out err code ->
  fst (call h op s)
  = Ok (if Z.eqb code 0 then
          [("status", VStr "success"); success_field op (Py.strip out);
           ("command", VStr (command_of op))]
        else
          [("status", VStr "error"); ("error", VStr (Py.strip err));
           ("command", VStr (command_of op))]).
Proof.
  intros Hop Hens Hc Hexec.
  rewrite (call_command_tool h op s Hop). unfold command_tool.
  assert (Hrun : client_call h op sc s1
                 = (Ok {| command := command_of op; stdout := Py.strip out;
                          stderr := Py.strip err; exit_code := code;
                          success := Z.eqb code 0 |},
                    record_event (NetExec c (command_of op) 30) s1)).
  { unfold client_call, SlurmClient.run.
    rewrite (bind_ok _ _ s1 (Py.strip out, Py.strip err, code)
               (record_event (NetExec c (command_of op) 30) s1)); [reflexivity|].
    rewrite (execute_unfold h _ _ _ _ c Hc), Hexec. reflexivity. }
  erewrite try_except_ok; [|erewrite bind_ok by exact Hens; erewrite bind_ok by exact Hrun;
                             reflexivity].
  unfold reply_of. cbn [fst success stdout stderr command].
  destruct (Z.eqb code 0); reflexivity.
Qed.

Lemma command_reply_witness :
  fst (call failing_host (OpSqueue (Some "u") None None None) initial_state)
  = Ok [("status", VStr "error"); ("error", VStr "warning");
        ("command", VStr (Command.squeue (Some "u") None None None))].
Proof.
  exact (command_reply failing_host (OpSqueue (Some "u") None None None) initial_state
           (snd (Server.ensure_connection failing_host initial_state))
           {| ssh_client := 0 |} 0
           (" ran " ++ Command.squeue (Some "u") None None None ++ String "010" "")
           (String "010" " warning ") 1
           eq_refl eq_refl eq_refl eq_refl).
Defined.

(** ** Errors at the tool boundary *)





(** ** Authentication of the lazily made connection *)

Section KeyFacts.
Variable h : Host.

Lemma expanduser_key_nonempty : Py.truthy (Some (Server.expanduser h "~/.ssh/id_rsa")) = true.
Proof.
  unfold Server.expanduser.
  destruct (getenv h "HOME") as [home|]; [|destruct (pw_dir h) as [home|]];
    try reflexivity; destruct (Py.rstrip_slash home); reflexivity.
Qed.

Lemma config_key_some (config : Config) :
  Server.get_connection_config h = Ok config ->
  cfg_key_filename config
  = Some (Server.getenv_or h "SLURM_KEY_FILE" (Server.expanduser h "~/.ssh/id_rsa")).
Proof.
  unfold Server.get_connection_config.
  destruct (Server.int h (Server.getenv_or h "SLURM_PORT" "22")); intros E;
    inversion E; reflexivity.
Qed.

(** A configuration error of [get_connection_config] is never the
    authentication error of [connect]. *)
Lemma config_error_message (e : exn) :
  Server.get_connection_config h = Raise e -> e <> ValueError SSHClient.no_auth_message.
Proof.
  unfold Server.get_connection_config, Server.int.
  destruct (int_of_str h (Server.getenv_or h "SLURM_PORT" "22")); intros E;
    inversion E. discriminate.
Qed.

Hypothesis key_not_empty : getenv h "SLURM_KEY_FILE" <> Some "".

Lemma config_key_truthy (config : Config) :
  Server.get_connection_config h = Ok config ->
  Py.truthy (cfg_key_filename config) = true.
Proof.
  intros E. rewrite (config_key_some config E). unfold Server.getenv_or.
  destruct (getenv h "SLURM_KEY_FILE") as [[|c v]|];
    [congruence | reflexivity | apply expanduser_key_nonempty].
Qed.

Lemma config_kwargs (config : Config) :
  Server.get_connection_config h = Ok config ->
  exists kw, SSHClient.build_kwargs (config_object config) = Ok kw
             /\ Py.truthy (kw_key_filename kw) = true /\ kw_password kw = None.
Proof.
  intros E. pose proof (config_key_truthy config E) as Hk.
  unfold SSHClient.build_kwargs. cbn [key_filename config_object]. rewrite Hk.
  eexists. split; [reflexivity|]. cbn [kw_key_filename kw_password]. auto.
Qed.

Lemma no_connects_key_auth (evs : list io_event) :
  no_connects evs -> forallb key_auth_only evs = true.
Proof.
  unfold no_connects, count_connects.
  induction evs as [|ev evs IH]; [reflexivity|].
  destruct ev; cbn [filter is_connect List.length forallb key_auth_only andb];
    try discriminate; exact IH.
Qed.

Lemma op_events_key_auth (evs : list io_event) :
  op_events h evs -> forallb key_auth_only evs = true.
Proof.
  intros [later [first [-> [Hl Hf]]]]. rewrite forallb_app.
  rewrite (no_connects_key_auth later Hl). cbn [andb].
  destruct Hf as [->|[c [config [kw [Hcfg [Hkw ->]]]]]]; [reflexivity|].
  destruct (config_kwargs config Hcfg) as [kw' [Hkw' [Hk Hp]]].
  assert (kw' = kw) by congruence. subst kw'.
  cbn [forallb key_auth_only]. now rewrite Hk, Hp.
Qed.

Lemma ensure_connection_no_auth_error (s : State) :
  fst (Server.ensure_connection h s) <> Raise (ValueError SSHClient.no_auth_message).
Proof.
  destruct (glob_ssh_client s) as [a|] eqn:Ha;
    [destruct (glob_slurm_client s) as [sc|] eqn:Hsc|].
  - rewrite (ensure_connection_reuse h s a sc Ha Hsc). discriminate.
  - rewrite ensure_connection_connect by auto.
    destruct (Server.get_connection_config h) as [config|e] eqn:Hcfg.
    + destruct (config_kwargs config Hcfg) as [kw [Hkw _]].
      rewrite connect_unfold, object_created_heap, Hkw. cbv zeta.
      destruct (net_connect h _ _ kw); discriminate.
    + cbn [fst]. pose proof (config_error_message e Hcfg). congruence.
  - rewrite ensure_connection_connect by auto.
    destruct (Server.get_connection_config h) as [config|e] eqn:Hcfg.
    + destruct (config_kwargs config Hcfg) as [kw [Hkw _]].
      rewrite connect_unfold, object_created_heap, Hkw. cbv zeta.
      destruct (net_connect h _ _ kw); discriminate.
    + cbn [fst]. pose proof (config_error_message e Hcfg). congruence.
Qed.

End KeyFacts.

(** C9, as stated, fails: with [SLURM_KEY_FILE] set to the empty string the
    configured key path is not [None] but is empty, so [connect] does not
    take the key branch.  Without a password the tool then reports the
    authentication-configuration error; with one, the connection is made
    with the password. *)
Lemma key_branch_counterexample :
  (exists config, Server.get_connection_config keyless_host = Ok config
                  /\ cfg_key_filename config = Some "")
  /\ fst (Server.ensure_connection keyless_host initial_state)
     = Raise (ValueError SSHClient.no_auth_message)
  /\ fst (call keyless_host (OpSqueue None None None None) initial_state)
     = Ok [("status", VStr "error");
           ("error", VStr "Either password or key_filename must be provided")]
  /\ net (snd (Server.ensure_connection keyless_password_host initial_state))
     = [NetConnect 0 {| kw_hostname := "cluster"; kw_username := "user"; kw_port := 22;
                        kw_timeout := 30; kw_key_filename := None;
                        kw_password := Some "secret" |}].
Proof.
  repeat split; try reflexivity. eexists. split; reflexivity.
Qed.

(** C9, amended.  The configuration read from the environment always has a
    key path that is not [None].  Unless [SLURM_KEY_FILE] is set to the
    empty string, that path is non-empty, and then: [ensure_connection]
    never raises the authentication-configuration error of [connect], and
    every connection attempt a tool makes asks for key authentication and
    carries no password. *)
Theorem key_authentication (h : Host) :
  (forall config, Server.get_connection_config h = Ok config ->
                  exists k, cfg_key_filename config = Some k)
  /\ (getenv h "SLURM_KEY_FILE" <> Some "" ->
      forall (op : operation) (s : State),
        fst (Server.ensure_connection h s) <> Raise (ValueError SSHClient.no_auth_message)
        /\ exists evs,
             net (snd (call h op s)) = (evs ++ net s)%list
             /\ forallb key_auth_only evs = true).
Proof.
  split.
  - intros config E. rewrite (config_key_some h config E). eauto.
  - intros Hkey op s. split.
    + exact (ensure_connection_no_auth_error h Hkey s).
    + destruct (call_emits h op s) as [evs [E Hev]]. exists evs.
      split; [exact E | exact (op_events_key_auth h Hkey evs Hev)].
Qed.

Lemma key_authentication_witness :
  (exists k, cfg_key_filename
               {| cfg_hostname := "cluster"; cfg_username := "user";
                  cfg_password := None;
                  cfg_key_filename := Some "/home/user/.ssh/id_rsa";
                  cfg_port := 22 |} = Some k)
  /\ fst (Server.ensure_connection good_host initial_state)
     <> Raise (ValueError SSHClient.no_auth_message)
  /\ exists evs,
       net (snd (call good_host (OpSqueue None None None None) initial_state))
       = (evs ++ net initial_state)%list
       /\ forallb key_auth_only evs = true.
Proof.
  split.
  - exact (proj1 (key_authentication good_host) _ eq_refl).
  - apply (proj2 (key_authentication good_host)). vm_compute. discriminate.
Defined.


(** ** The session after a failed connection attempt *)

(** On a client that was just constructed, [execute_command] raises the
    not-connected error and changes nothing. *)
Lemma execute_before_connect (h : Host) (s : State)
    (hostname_ username_ : string) (password_ key_filename_ : option string) (port_ : Z)
    (command_ : string) (timeout : Z) :
  let fresh := snd (SSHClient.init hostname_ username_ password_ key_filename_ port_ s) in
  SSHClient.execute_command h (next_addr s) command_ timeout fresh
  = (Raise (RuntimeError SSHClient.not_connected_message), fresh).
Proof.
  cbv zeta. apply execute_not_connected. cbn [SSHClient.init snd heap].
  now rewrite upd_same.
Qed.

(** After a [connect] that raised, [execute_command] passes its guard: it
    calls the transport and does not raise the not-connected error. *)
Lemma execute_after_failure (h : Host) (self : addr) (s : State) (e : exn)
    (command_ : string) (timeout : Z) :
  fst (SSHClient.connect h self s) = Raise e ->
  let s1 := snd (SSHClient.connect h self s) in
  net (snd (SSHClient.execute_command h self command_ timeout s1))
    = NetExec (next_handle s) command_ timeout :: net s1
  /\ fst (SSHClient.execute_command h self command_ timeout s1)
     <> Raise (RuntimeError SSHClient.not_connected_message).
Proof.
  intros He. cbv zeta.
  rewrite (execute_unfold h self command_ timeout _ (next_handle s)
             (connect_failure_keeps_client h self s e He)).
  destruct (net_exec h _ (next_handle s) command_ timeout); split;
    (reflexivity || discriminate).
Qed.

(** C4, on the inputs where it fails.  A client without any authentication
    data has no transport before [connect], [connect] raises, and afterwards
    the client holds a transport object.  On the server, a rejected
    connection leaves the global SSH client bound to such an object, and
    the status tool, which answered disconnected before the attempt, now
    takes the object for a connection and reports an error. *)
Lemma failed_connect_leaves_partial_session :
  let s0 := snd (SSHClient.init "cluster" "user" None None 22 initial_state) in
  let s1 := snd (SSHClient.connect good_host 0 s0) in
  let t1 := snd (call rejecting_host (OpSqueue None None None None) initial_state) in
  client (heap s0 0) = None
  /\ fst (SSHClient.connect good_host 0 s0) = Raise (ValueError SSHClient.no_auth_message)
  /\ client (heap s1 0) = Some 0
  /\ glob_ssh_client initial_state = None
  /\ fst (call rejecting_host (OpSqueue None None None None) initial_state)
     = Ok (Server.error_reply (TransportError "Authentication failed."))
  /\ glob_ssh_client t1 = Some 0
  /\ client (heap t1 0) = Some 0
  /\ fst (call rejecting_host OpGetConnectionStatus initial_state)
     = Ok [("status", VStr "disconnected"); ("hostname", VStr "cluster");
           ("username", VStr "user"); ("port", VInt 22)]
  /\ fst (call rejecting_host OpGetConnectionStatus t1)
     = Ok [("status", VStr "error"); ("error", VStr "SSH session not active")].
Proof. cbv zeta. repeat split; reflexivity. Qed.

(** C6, on the input where it fails.  The head node rejects the
    credentials, so [connect] raises and has never succeeded; the following
    [execute_command] does not raise the not-connected error but sends the
    command to the transport. *)
Lemma execute_after_failed_connect :
  let s0 := snd (SSHClient.init "cluster" "user" None (Some "/home/user/.ssh/id_rsa") 22
                   initial_state) in
  let s1 := snd (SSHClient.connect rejecting_host 0 s0) in
  fst (SSHClient.connect rejecting_host 0 s0) = Raise (TransportError "Authentication failed.")
  /\ fst (SSHClient.execute_command rejecting_host 0 "squeue" 30 s1)
     = Raise (TransportError "SSH session not active")
  /\ fst (SSHClient.execute_command rejecting_host 0 "squeue" 30 s1)
     <> Raise (RuntimeError SSHClient.not_connected_message)
  /\ net (snd (SSHClient.execute_command rejecting_host 0 "squeue" 30 s1))
     = NetExec 0 "squeue" 30 :: net s1.
Proof. cbv zeta. repeat split; try reflexivity. vm_compute. discriminate. Qed.

(** ** The session invariant *)

Section InvariantFacts.
Variable h : Host.

Lemma invariant_frame (s s' : State) :
  heap s' = heap s -> glob_ssh_client s' = glob_ssh_client s ->
  glob_slurm_client s' = glob_slurm_client s ->
  session_invariant s -> session_invariant s'.
Proof. unfold session_invariant. intros -> -> ->. auto. Qed.

Lemma invariant_no_slurm (s : State) : glob_slurm_client s = None -> session_invariant s.
Proof. unfold session_invariant. now intros ->. Qed.

Lemma execute_frame (self : addr) (command_ : string) (timeout : Z) (s : State) :
  let s' := snd (SSHClient.execute_command h self command_ timeout s) in
  heap s' = heap s /\ glob_ssh_client s' = glob_ssh_client s
  /\ glob_slurm_client s' = glob_slurm_client s.
Proof.
  cbv zeta. destruct (client (heap s self)) as [c|] eqn:Hc.
  - rewrite (execute_unfold h self command_ timeout s c Hc).
    destruct (net_exec h (net s) c command_ timeout); auto.
  - rewrite (execute_not_connected h self command_ timeout s Hc). auto.
Qed.

Lemma run_frame (sc : SlurmClientObj) (command_ : string) (s : State) :
  let s' := snd (SlurmClient.run h sc command_ s) in
  heap s' = heap s /\ glob_ssh_client s' = glob_ssh_client s
  /\ glob_slurm_client s' = glob_slurm_client s.
Proof.
  cbv zeta. unfold SlurmClient.run, bind.
  pose proof (execute_frame (ssh_client sc) command_ 30 s) as Hf. cbv zeta in Hf.
  destruct (SSHClient.execute_command h (ssh_client sc) command_ 30 s)
    as [[[[out err] code]|e] s']; exact Hf.
Qed.

(** [ensure_connection] keeps the invariant, and the client it returns is
    the global one. *)
Lemma ensure_connection_invariant (s : State) :
  session_invariant s ->
  session_invariant (snd (Server.ensure_connection h s))
  /\ forall sc, fst (Server.ensure_connection h s) = Ok sc ->
                glob_slurm_client (snd (Server.ensure_connection h s)) = Some sc.
Proof.
  intros Hinv.
  assert (Hcase : (exists a sc, glob_ssh_client s = Some a /\ glob_slurm_client s = Some sc)
                  \/ glob_slurm_client s = None).
  { unfold session_invariant in Hinv.
    destruct (glob_slurm_client s) as [sc|]; [left|now right].
    destruct Hinv as [Ha _]. eauto. }
  destruct Hcase as [[a [sc [Ha Hsc]]]|Hnone].
  - rewrite (ensure_connection_reuse h s a sc Ha Hsc). cbn [fst snd].
    split; [assumption | congruence].
  - rewrite ensure_connection_connect by auto.
    destruct (Server.get_connection_config h) as [config|e];
      [|split; [assumption | discriminate]].
    rewrite connect_unfold, object_created_heap.
    destruct (SSHClient.build_kwargs (config_object config)) as [kw|e];
      [|split; [now apply invariant_no_slurm | discriminate]].
    cbv zeta. destruct (net_connect h _ _ kw);
      [split; [now apply invariant_no_slurm | discriminate]|].
    cbn [fst snd set_glob_slurm_client glob_slurm_client]. split.
    + unfold session_invariant.
      cbn [glob_slurm_client glob_ssh_client heap ssh_client record_event].
      split; [reflexivity|]. rewrite client_attached_heap. discriminate.
    + congruence.
Qed.

Lemma command_tool_invariant (op : operation) (s : State) :
  session_invariant s -> session_invariant (snd (command_tool h op s)).
Proof.
  intros Hinv. destruct (ensure_connection_invariant s Hinv) as [H1 _].
  unfold command_tool, try_except, bind.
  destruct (Server.ensure_connection h s) as [[sc|e] s1]; [|exact H1].
  cbn [snd] in H1. unfold client_call.
  pose proof (run_frame sc (command_of op) s1) as Hf. cbv zeta in Hf.
  destruct (SlurmClient.run h sc (command_of op) s1) as [[r|e] s2];
    cbn [snd] in *; destruct Hf as [F1 [F2 F3]]; now apply (invariant_frame s1).
Qed.

Lemma get_connection_status_invariant (s : State) :
  session_invariant s -> session_invariant (snd (Server.get_connection_status h s)).
Proof.
  intros Hinv. unfold Server.get_connection_status, try_except, bind, lift,
    get_glob_ssh_client, get_obj.
  destruct (Server.get_connection_config h) as [config|e]; [|exact Hinv].
  destruct (glob_ssh_client s) as [a|]; [|exact Hinv].
  destruct (client (heap s a)); [|exact Hinv].
  pose proof (execute_frame a "echo 'connection test'" 30 s) as Hf. cbv zeta in Hf.
  destruct (SSHClient.execute_command h a "echo 'connection test'" 30 s)
    as [[[[out err] code]|e] s']; cbn [snd] in *; destruct Hf as [F1 [F2 F3]];
    [destruct (Z.eqb code 0)|]; now apply (invariant_frame s).
Qed.

Lemma server_disconnect_invariant (s : State) :
  session_invariant s -> session_invariant (snd (Server.disconnect s)).
Proof.
  intros Hinv. unfold Server.disconnect, try_except, bind, get_glob_ssh_client.
  destruct (glob_ssh_client s) as [a|]; [|exact Hinv].
  rewrite disconnect_unfold. destruct (client (heap s a)); now apply invariant_no_slurm.
Qed.

(** Every tool keeps the session invariant. *)
Lemma call_invariant (op : operation) (s : State) :
  session_invariant s -> session_invariant (snd (call h op s)).
Proof.
  intros Hinv. destruct (runs_command op) eqn:Hop.
  - rewrite (call_command_tool h op s Hop). now apply command_tool_invariant.
  - destruct op; try discriminate.
    + now apply get_connection_status_invariant.
    + now apply server_disconnect_invariant.
Qed.

(** The invariant holds in every state the server reaches. *)
Lemma reachable_invariant (s : State) : reachable h s -> session_invariant s.
Proof.
  induction 1 as [|op s Hs IH].
  - exact I.
  - now apply call_invariant.
Qed.

(** In a reachable state, a client returned by [ensure_connection] holds a
    transport, so the command of a tool always reaches it. *)
Lemma reachable_client_connected (s s1 : State) (sc : SlurmClientObj) :
  reachable h s -> Server.ensure_connection h s = (Ok sc, s1) ->
  exists c, client (heap s1 (ssh_client sc)) = Some c.
Proof.
  intros Hs Hens.
  destruct (ensure_connection_invariant s (reachable_invariant s Hs)) as [Hinv Hsc].
  rewrite Hens in Hinv, Hsc. cbn [fst snd] in Hinv, Hsc.
  specialize (Hsc sc eq_refl). unfold session_invariant in Hinv. rewrite Hsc in Hinv.
  destruct Hinv as [_ Hc]. destruct (client (heap s1 (ssh_client sc))) as [c|]; [eauto|congruence].
Qed.

End InvariantFacts.


(** * Further properties of the SSH client *)

(** X1.  What [execute_command] returns for a command the transport ran is
    the exit status unchanged and the two output texts with a run of
    whitespace removed at each end and nothing else: the returned texts
    neither start nor end with whitespace, and putting the removed runs back
    gives the transport's texts. *)
Theorem execute_command_trims (h : Host) (self : addr) (command_ : string) (timeout : Z)
    (s : State) (c : handle) (out err : string) (code : Z) :
  client (heap s self) = Some c ->
  net_exec h (net s) c command_ timeout = ExecDone out err code ->
  exists o e,
    fst (SSHClient.execute_command h self command_ timeout s) = Ok (o, e, code)
    /\ (exists l r, out = l ++ o ++ r /\ Py.all_space l = true /\ Py.all_space r = true)
    /\ (exists l r, err = l ++ e ++ r /\ Py.all_space l = true /\ Py.all_space r = true)
    /\ Py.is_space_opt (Py.first_char o) = false
    /\ Py.is_space_opt (Py.last_char o) = false
    /\ Py.is_space_opt (Py.first_char e) = false
    /\ Py.is_space_opt (Py.last_char e) = false.
Proof.
  intros Hc Hexec. exists (Py.strip out), (Py.strip err).
  rewrite (execute_unfold h self command_ timeout s c Hc), Hexec.
  destruct (strip_spec out) as [Ho [Ho1 Ho2]].
  destruct (strip_spec err) as [He [He1 He2]].
  repeat split; assumption || reflexivity.
Qed.

Lemma execute_command_trims_witness :
  exists o e,
    fst (SSHClient.execute_command good_host 0 "sinfo" 30
           (snd (Server.ensure_connection good_host initial_state)))
    = Ok (o, e, 0%Z)
    /\ (exists l r, " ran sinfo" ++ String "010" "" = l ++ o ++ r
                    /\ Py.all_space l = true /\ Py.all_space r = true)
    /\ (exists l r, String "010" " warning " = l ++ e ++ r
                    /\ Py.all_space l = true /\ Py.all_space r = true)
    /\ Py.is_space_opt (Py.first_char o) = false
    /\ Py.is_space_opt (Py.last_char o) = false
    /\ Py.is_space_opt (Py.first_char e) = false
    /\ Py.is_space_opt (Py.last_char e) = false.
Proof.
  exact (execute_command_trims good_host 0 "sinfo" 30
           (snd (Server.ensure_connection good_host initial_state)) 0
           (" ran sinfo" ++ String "010" "") (String "010" " warning ") 0
           eq_refl eq_refl).
Defined.

(** X2.  [connect] offers the transport exactly one credential.  With a
    non-empty key path it passes the key path and no password, whether or
    not a password is set; with no key path and a non-empty password it
    passes the password and no key.  Host, user and port are the object's,
    and the timeout is 30. *)
Theorem connect_credentials (h : Host) (self : addr) (s : State) :
  (Py.truthy (key_filename (heap s self)) = true ->
   net (snd (SSHClient.connect h self s))
   = NetConnect (next_handle s)
       {| kw_hostname := hostname (heap s self); kw_username := username (heap s self);
          kw_port := port (heap s self); kw_timeout := 30;
          kw_key_filename := key_filename (heap s self); kw_password := None |}
       :: net s)
  /\ (Py.truthy (key_filename (heap s self)) = false ->
      Py.truthy (password (heap s self)) = true ->
      net (snd (SSHClient.connect h self s))
      = NetConnect (next_handle s)
          {| kw_hostname := hostname (heap s self); kw_username := username (heap s self);
             kw_port := port (heap s self); kw_timeout := 30;
             kw_key_filename := None; kw_password := password (heap s self) |}
          :: net s).
Proof.
  split.
  - intros Hk. rewrite connect_unfold. unfold SSHClient.build_kwargs. rewrite Hk.
    cbv zeta. destruct (net_connect h (net s) (next_handle s) _); reflexivity.
  - intros Hk Hp. rewrite connect_unfold. unfold SSHClient.build_kwargs. rewrite Hk, Hp.
    cbv zeta. destruct (net_connect h (net s) (next_handle s) _); reflexivity.
Qed.

Lemma connect_credentials_witness :
  net (snd (SSHClient.connect good_host 0
              (snd (SSHClient.init "cluster" "user" (Some "secret") (Some "/key") 22
                      initial_state))))
    = [NetConnect 0 {| kw_hostname := "cluster"; kw_username := "user"; kw_port := 22;
                       kw_timeout := 30; kw_key_filename := Some "/key";
                       kw_password := None |}]
  /\ net (snd (SSHClient.connect good_host 0
                 (snd (SSHClient.init "cluster" "user" (Some "secret") (Some "") 22
                         initial_state))))
     = [NetConnect 0 {| kw_hostname := "cluster"; kw_username := "user"; kw_port := 22;
                        kw_timeout := 30; kw_key_filename := None;
                        kw_password := Some "secret" |}].
Proof.
  split.
  - exact (proj1 (connect_credentials good_host 0
                    (snd (SSHClient.init "cluster" "user" (Some "secret") (Some "/key") 22
                            initial_state))) eq_refl).
  - exact (proj2 (connect_credentials good_host 0
                    (snd (SSHClient.init "cluster" "user" (Some "secret") (Some "") 22
                            initial_state))) eq_refl eq_refl).
Defined.

(** X3.  After a [connect] that returned, the client holds the transport
    that [connect] created, and [execute_command] sends its command to that
    transport: it returns the trimmed reply or raises the transport's
    exception, and never the not-connected error. *)
Theorem connect_then_execute (h : Host) (self : addr) (s : State)
    (command_ : string) (timeout : Z) :
  fst (SSHClient.connect h self s) = Ok tt ->
  let s1 := snd (SSHClient.connect h self s) in
  client (heap s1 self) = Some (next_handle s)
  /\ SSHClient.execute_command h self command_ timeout s1
     = match net_exec h (net s1) (next_handle s) command_ timeout with
       | ExecDone out err code =>
           (Ok (Py.strip out, Py.strip err, code),
            record_event (NetExec (next_handle s) command_ timeout) s1)
       | ExecRaises msg =>
           (Raise (TransportError msg),
            record_event (NetExec (next_handle s) command_ timeout) s1)
       end.
Proof.
  intros Hok. cbv zeta.
  assert (Hc : client (heap (snd (SSHClient.connect h self s)) self) = Some (next_handle s)).
  { revert Hok. rewrite connect_unfold.
    destruct (SSHClient.build_kwargs (heap s self)) as [kw|e]; [|discriminate].
    cbv zeta. destruct (net_connect h (net s) (next_handle s) kw); [discriminate|].
    intros _. cbn [snd record_event heap]. now rewrite client_attached_heap. }
  split; [exact Hc | now apply execute_unfold].
Qed.

Lemma connect_then_execute_witness :
  let s0 := snd (SSHClient.init "cluster" "user" None (Some "/key") 22 initial_state) in
  let s1 := snd (SSHClient.connect good_host 0 s0) in
  client (heap s1 0) = Some 0
  /\ SSHClient.execute_command good_host 0 "sinfo" 30 s1
     = match net_exec good_host (net s1) 0 "sinfo" 30 with
       | ExecDone out err code =>
           (Ok (Py.strip out, Py.strip err, code), record_event (NetExec 0 "sinfo" 30) s1)
       | ExecRaises msg =>
           (Raise (TransportError msg), record_event (NetExec 0 "sinfo" 30) s1)
       end.
Proof.
  exact (connect_then_execute good_host 0
           (snd (SSHClient.init "cluster" "user" None (Some "/key") 22 initial_state))
           "sinfo" 30 eq_refl).
Defined.

(** X4.  A [with] block on a client that connects always ends disconnected:
    if the block leaves the client object alone, then after the block,
    whether it returned or raised, the client has no transport, the
    transport that [__enter__] opened was closed as the last event, and the
    outcome of the statement is the outcome of the block. *)
Theorem with_client_disconnects {A} (h : Host) (self : addr) (body : addr -> M A)
    (s : State) :
  fst (SSHClient.connect h self s) = Ok tt ->
  (forall c st, heap (snd (body c st)) self = heap st self) ->
  let entered := snd (SSHClient.connect h self s) in
  let after := snd (with_client h self body s) in
  fst (with_client h self body s) = fst (body self entered)
  /\ client (heap after self) = None
  /\ net after = NetClose (next_handle s) :: net (snd (body self entered)).
Proof.
  intros Hok Hbody. cbv zeta.
  destruct (connect_then_execute h self s "" 0 Hok) as [Hc _]. cbv zeta in Hc.
  unfold with_client, SSHClient.__enter__, SSHClient.__exit__.
  destruct (SSHClient.connect h self s) as [r s1] eqn:E. cbn [fst snd] in *. subst r.
  rewrite (bind_ok _ _ s self s1) by (now rewrite (bind_ok _ _ s tt s1 E)).
  specialize (Hbody self s1).
  assert (Hc2 : forall s2, heap s2 self = heap s1 self ->
            SSHClient.disconnect self s2
            = (Ok tt, snd (set_client self None (record_event (NetClose (next_handle s)) s2)))).
  { intros s2 H2. rewrite disconnect_unfold, H2, Hc. reflexivity. }
  destruct (body self s1) as [[a|e] s2]; cbn [snd fst] in *;
    rewrite (Hc2 s2 Hbody); cbn [set_client fst snd heap net record_event];
    rewrite upd_same; repeat split; reflexivity.
Qed.

Lemma with_client_disconnects_witness :
  let s0 := snd (SSHClient.init "cluster" "user" None (Some "/key") 22 initial_state) in
  let body := fun c => SSHClient.execute_command failing_host c "sinfo" 30 in
  let entered := snd (SSHClient.connect failing_host 0 s0) in
  let after := snd (with_client failing_host 0 body s0) in
  fst (with_client failing_host 0 body s0) = fst (body 0 entered)
  /\ client (heap after 0) = None
  /\ net after = NetClose 0 :: net (snd (body 0 entered)).
Proof.
  exact (with_client_disconnects failing_host 0
           (fun c => SSHClient.execute_command failing_host c "sinfo" 30)
           (snd (SSHClient.init "cluster" "user" None (Some "/key") 22 initial_state))
           eq_refl
           (fun c st =>
              f_equal (fun hp => hp 0)
                (proj1 (execute_frame failing_host c "sinfo" 30 st)))).
Defined.


(** * Further properties of the server *)

Section ToolFacts.
Variable h : Host.

(** A command tool, case by case. *)
Lemma command_tool_unfold (op : operation) (s : State) :
  command_tool h op s =
  match Server.ensure_connection h s with
  | (Raise e, s1) => (Ok (Server.error_reply e), s1)
  | (Ok sc, s1) =>
      match client (heap s1 (ssh_client sc)) with
      | None => (Ok (Server.error_reply (RuntimeError SSHClient.not_connected_message)), s1)
      | Some c =>
          match net_exec h (net s1) c (command_of op) 30 with
          | ExecDone out err code =>
              (Ok (reply_of op {| command := command_of op; stdout := Py.strip out;
                                  stderr := Py.strip err; exit_code := code;
                                  success := Z.eqb code 0 |}),
               record_event (NetExec c (command_of op) 30) s1)
          | ExecRaises msg =>
              (Ok (Server.error_reply (TransportError msg)),
               record_event (NetExec c (command_of op) 30) s1)
          end
      end
  end.
Proof.
  unfold command_tool, try_except, bind at 1.
  destruct (Server.ensure_connection h s) as [[sc|e] s1]; [|reflexivity].
  unfold client_call, SlurmClient.run, bind.
  destruct (client (heap s1 (ssh_client sc))) as [c|] eqn:Hc.
  - rewrite (execute_unfold h _ _ _ _ c Hc).
    destruct (net_exec h (net s1) c (command_of op) 30); reflexivity.
  - rewrite (execute_not_connected h _ _ _ _ Hc). reflexivity.
Qed.

(** The status tool, case by case. *)
Lemma get_connection_status_unfold (s : State) :
  Server.get_connection_status h s =
  match Server.get_connection_config h with
  | Raise e => (Ok (Server.error_reply e), s)
  | Ok config =>
      match glob_ssh_client s with
      | None => (Ok (Server.status_reply "disconnected" config), s)
      | Some a =>
          match client (heap s a) with
          | None => (Ok (Server.status_reply "disconnected" config), s)
          | Some c =>
              match net_exec h (net s) c "echo 'connection test'" 30 with
              | ExecDone out err code =>
                  (Ok (Server.status_reply
                         (if Z.eqb code 0 then "connected" else "disconnected") config),
                   record_event (NetExec c "echo 'connection test'" 30) s)
              | ExecRaises msg =>
                  (Ok (Server.error_reply (TransportError msg)),
                   record_event (NetExec c "echo 'connection test'" 30) s)
              end
          end
      end
  end.
Proof.
  unfold Server.get_connection_status, try_except, bind, lift, get_glob_ssh_client, get_obj.
  destruct (Server.get_connection_config h) as [config|e]; [|reflexivity].
  destruct (glob_ssh_client s) as [a|]; [|reflexivity].
  destruct (client (heap s a)) as [c|] eqn:Hc; [|reflexivity].
  rewrite (execute_unfold h _ _ _ _ c Hc).
  destruct (net_exec h (net s) c "echo 'connection test'" 30) as [out err code|msg];
    [destruct (Z.eqb code 0)|]; reflexivity.
Qed.

(** [ensure_connection] when there is no usable session, case by case. *)
Lemma ensure_connection_cases (s : State) :
  glob_ssh_client s = None \/ glob_slurm_client s = None ->
  Server.ensure_connection h s =
  match Server.get_connection_config h with
  | Raise e => (Raise e, s)
  | Ok config =>
      let s1 := client_attached (next_addr s) (object_created config s) in
      match SSHClient.build_kwargs (config_object config) with
      | Raise e => (Raise e, s1)
      | Ok kw =>
          let s2 := record_event (NetConnect (next_handle s) kw) s1 in
          match net_connect h (net s) (next_handle s) kw with
          | Some msg => (Raise (TransportError msg), s2)
          | None =>
              (Ok {| ssh_client := next_addr s |},
               snd (set_glob_slurm_client (Some {| ssh_client := next_addr s |}) s2))
          end
      end
  end.
Proof.
  intros Hnone. rewrite ensure_connection_connect by assumption.
  destruct (Server.get_connection_config h) as [config|e]; [|reflexivity].
  rewrite connect_unfold, object_created_heap.
  destruct (SSHClient.build_kwargs (config_object config)) as [kw|e]; [|reflexivity].
  cbv zeta.
  change (net (object_created config s)) with (net s).
  change (next_handle (object_created config s)) with (next_handle s).
  destruct (net_connect h (net s) (next_handle s) kw); reflexivity.
Qed.

End ToolFacts.

Section SessionFacts.
Variable h : Host.



(** A command tool called without a usable session, in an environment whose
    configuration gives [connect] its arguments [kw]. *)
Lemma connect_path_events (op : operation) (s : State) (config : Config)
    (kw : connect_kwargs) :
  runs_command op = true ->
  glob_ssh_client s = None \/ glob_slurm_client s = None ->
  Server.get_connection_config h = Ok config ->
  SSHClient.build_kwargs (config_object config) = Ok kw ->
  exists evs,
    net (snd (call h op s)) = (evs ++ NetConnect (next_handle s) kw :: net s)%list
    /\ no_connects evs.
Proof.
  intros Hop Hnone Hcfg Hkw.
  rewrite (call_command_tool h op s Hop), command_tool_unfold.
  rewrite (ensure_connection_cases h s Hnone), Hcfg, Hkw. cbv zeta.
  destruct (net_connect h (net s) (next_handle s) kw) as [msg|].
  - exists []. split; reflexivity.
  - cbn [set_glob_slurm_client snd heap record_event ssh_client].
    rewrite client_attached_heap. cbn [client set_client_field net].
    match goal with
    | |- context [net_exec h ?l ?c ?cmd ?t] => destruct (net_exec h l c cmd t)
    end; eexists [_]; split; reflexivity.
Qed.

(** What a call adds when both globals are set. *)
Lemma connected_call_no_connect (op : operation) (s : State) (a : addr)
    (sc : SlurmClientObj) :
  glob_ssh_client s = Some a -> glob_slurm_client s = Some sc ->
  count_connects (net (snd (call h op s))) = count_connects (net s).
Proof.
  intros Ha Hsc. destruct (runs_command op) eqn:Hop.
  - rewrite (call_command_tool h op s Hop), command_tool_unfold.
    rewrite (ensure_connection_reuse h s a sc Ha Hsc).
    destruct (client (heap s (ssh_client sc))); [|reflexivity].
    destruct (net_exec h (net s) _ (command_of op) 30); reflexivity.
  - destruct op; try discriminate.
    + cbn [call]. rewrite get_connection_status_unfold.
      destruct (Server.get_connection_config h); [|reflexivity].
      rewrite Ha. destruct (client (heap s a)); [|reflexivity].
      destruct (net_exec h (net s) _ _ 30); reflexivity.
    + cbn [call]. rewrite server_disconnect_unfold, Ha, disconnect_unfold.
      destruct (client (heap s a)); reflexivity.
Qed.

End SessionFacts.

(** X5.  In every state the server reaches, the session invariant holds,
    and a client returned by [ensure_connection] is the global one, wraps
    the global SSH client, and holds a transport; so the method a command
    tool then calls never raises the not-connected error. *)
Theorem commands_reach_transport (h : Host) (s : State) :
  reachable h s ->
  session_invariant s
  /\ forall op sc s1,
       Server.ensure_connection h s = (Ok sc, s1) ->
       glob_slurm_client s1 = Some sc
       /\ glob_ssh_client s1 = Some (ssh_client sc)
       /\ (exists c, client (heap s1 (ssh_client sc)) = Some c)
       /\ fst (client_call h op sc s1) <> Raise (RuntimeError SSHClient.not_connected_message).
Proof.
  intros Hs. pose proof (reachable_invariant h s Hs) as Hinv.
  split; [exact Hinv|]. intros op sc s1 Hens.
  destruct (ensure_connection_invariant h s Hinv) as [Hinv1 Hsc].
  rewrite Hens in Hinv1, Hsc. cbn [fst snd] in Hinv1, Hsc.
  specialize (Hsc sc eq_refl). unfold session_invariant in Hinv1. rewrite Hsc in Hinv1.
  destruct Hinv1 as [Ha Hc].
  destruct (client (heap s1 (ssh_client sc))) as [c|] eqn:Ec; [|congruence].
  repeat split; [assumption | assumption | eauto |].
  unfold client_call, SlurmClient.run, bind.
  rewrite (execute_unfold h _ _ _ _ c Ec).
  destruct (net_exec h (net s1) c (command_of op) 30); discriminate.
Qed.

Lemma commands_reach_transport_witness :
  let s := snd (call good_host (OpSinfo None None None) initial_state) in
  session_invariant s
  /\ forall op sc s1,
       Server.ensure_connection good_host s = (Ok sc, s1) ->
       glob_slurm_client s1 = Some sc
       /\ glob_ssh_client s1 = Some (ssh_client sc)
       /\ (exists c, client (heap s1 (ssh_client sc)) = Some c)
       /\ fst (client_call good_host op sc s1)
          <> Raise (RuntimeError SSHClient.not_connected_message).
Proof.
  exact (commands_reach_transport good_host _
           (reachable_call good_host (OpSinfo None None None) initial_state
              (reachable_initial good_host))).
Defined.

(** X6.  The connection is made once and reused: after an
    [ensure_connection] that returned a client, calling it again returns the
    same client and changes nothing, and no tool called in that state makes
    a connection attempt. *)
Theorem connection_reused (h : Host) (s s1 : State) (sc : SlurmClientObj) :
  session_invariant s ->
  Server.ensure_connection h s = (Ok sc, s1) ->
  Server.ensure_connection h s1 = (Ok sc, s1)
  /\ forall op, count_connects (net (snd (call h op s1))) = count_connects (net s1).
Proof.
  intros Hinv Hens.
  destruct (ensure_connection_invariant h s Hinv) as [Hinv1 Hsc].
  rewrite Hens in Hinv1, Hsc. cbn [fst snd] in Hinv1, Hsc.
  specialize (Hsc sc eq_refl). unfold session_invariant in Hinv1. rewrite Hsc in Hinv1.
  destruct Hinv1 as [Ha _]. split.
  - exact (ensure_connection_reuse h s1 _ sc Ha Hsc).
  - intros op. exact (connected_call_no_connect h op s1 _ sc Ha Hsc).
Qed.

Lemma connection_reused_witness :
  let s1 := snd (Server.ensure_connection good_host initial_state) in
  Server.ensure_connection good_host s1 = (Ok {| ssh_client := 0 |}, s1)
  /\ forall op, count_connects (net (snd (call good_host op s1))) = count_connects (net s1).
Proof.
  exact (connection_reused good_host initial_state
           (snd (Server.ensure_connection good_host initial_state))
           {| ssh_client := 0 |} I eq_refl).
Defined.

(** X7.  The connection is made lazily by the first command: a command tool
    called while there is no usable session, in an environment that gives
    [connect] its arguments, makes exactly one connection attempt, with
    those arguments and before anything else it sends; if the attempt
    succeeds, both globals are set afterwards. *)
Theorem first_call_connects_once (h : Host) (op : operation) (s : State)
    (config : Config) (kw : connect_kwargs) :
  runs_command op = true ->
  glob_ssh_client s = None \/ glob_slurm_client s = None ->
  Server.get_connection_config h = Ok config ->
  SSHClient.build_kwargs (config_object config) = Ok kw ->
  (exists evs,
     net (snd (call h op s)) = (evs ++ NetConnect (next_handle s) kw :: net s)%list
     /\ no_connects evs)
  /\ (net_connect h (net s) (next_handle s) kw = None ->
      glob_ssh_client (snd (call h op s)) = Some (next_addr s)
      /\ glob_slurm_client (snd (call h op s)) = Some {| ssh_client := next_addr s |}).
Proof.
  intros Hop Hnone Hcfg Hkw. split.
  - now apply connect_path_events with (config := config).
  - intros Hok.
    rewrite (call_command_tool h op s Hop), command_tool_unfold.
    rewrite (ensure_connection_cases h s Hnone), Hcfg, Hkw. cbv zeta. rewrite Hok.
    cbn [set_glob_slurm_client snd heap record_event ssh_client].
    rewrite client_attached_heap. cbn [client set_client_field net].
    match goal with
    | |- context [net_exec h ?l ?c ?cmd ?t] => destruct (net_exec h l c cmd t)
    end; split; reflexivity.
Qed.

Lemma first_call_connects_once_witness :
  let kw := {| kw_hostname := "cluster"; kw_username := "user"; kw_port := 22;
               kw_timeout := 30; kw_key_filename := Some "/home/user/.ssh/id_rsa";
               kw_password := None |} in
  let op := OpScontrolShowJob "42" in
  (exists evs,
     net (snd (call good_host op initial_state))
     = (evs ++ NetConnect 0 kw :: net initial_state)%list
     /\ no_connects evs)
  /\ (net_connect good_host [] 0 kw = None ->
      glob_ssh_client (snd (call good_host op initial_state)) = Some 0
      /\ glob_slurm_client (snd (call good_host op initial_state))
         = Some {| ssh_client := 0 |}).
Proof.
  exact (first_call_connects_once good_host (OpScontrolShowJob "42") initial_state
           {| cfg_hostname := "cluster"; cfg_username := "user"; cfg_password := None;
              cfg_key_filename := Some "/home/user/.ssh/id_rsa"; cfg_port := 22 |}
           _ eq_refl (or_introl eq_refl) eq_refl eq_refl).
Defined.



(** X9.  The status tool only looks: it never changes an object or a
    global, it makes no connection attempt and closes nothing; all it may
    add to the transport log is its one probe command. *)
Theorem status_is_read_only (h : Host) (s : State) :
  let s' := snd (Server.get_connection_status h s) in
  heap s' = heap s
  /\ glob_ssh_client s' = glob_ssh_client s
  /\ glob_slurm_client s' = glob_slurm_client s
  /\ count_connects (net s') = count_connects (net s)
  /\ count_closes (net s') = count_closes (net s)
  /\ (net s' = net s \/ exists c, net s' = NetExec c "echo 'connection test'" 30 :: net s).
Proof.
  cbv zeta. rewrite get_connection_status_unfold.
  destruct (Server.get_connection_config h) as [config|e];
    [|cbn [snd]; repeat split; now left].
  destruct (glob_ssh_client s) as [a|] eqn:Ha;
    [|cbn [snd]; repeat split; (exact Ha || now left)].
  destruct (client (heap s a)) as [c|];
    [|cbn [snd]; repeat split; (exact Ha || now left)].
  destruct (net_exec h (net s) c "echo 'connection test'" 30);
    cbn [snd record_event heap glob_ssh_client glob_slurm_client net];
    repeat split; try reflexivity; try exact Ha; right; eauto.
Qed.



(** X11.  The disconnect tool releases the session: when the global SSH
    client holds a transport, the tool closes that transport (one close
    event and nothing else), clears the client's transport and both
    globals, and the status tool called next answers disconnected without
    touching the transport. *)
Theorem disconnect_releases (h : Host) (s : State) (a : addr) (c : handle)
    (config : Config) :
  glob_ssh_client s = Some a ->
  client (heap s a) = Some c ->
  Server.get_connection_config h = Ok config ->
  let s' := snd (Server.disconnect s) in
  net s' = NetClose c :: net s
  /\ client (heap s' a) = None
  /\ glob_ssh_client s' = None
  /\ glob_slurm_client s' = None
  /\ Server.get_connection_status h s'
     = (Ok (Server.status_reply "disconnected" config), s').
Proof.
  intros Ha Hc Hcfg. cbv zeta.
  rewrite server_disconnect_unfold, Ha, disconnect_unfold, Hc.
  cbn [snd set_glob_slurm_client set_glob_ssh_client set_client record_event
       net heap glob_ssh_client glob_slurm_client].
  rewrite upd_same. repeat split.
  rewrite get_connection_status_unfold, Hcfg. reflexivity.
Qed.

Lemma disconnect_releases_witness :
  let s := snd (call good_host (OpSinfo None None None) initial_state) in
  let config := {| cfg_hostname := "cluster"; cfg_username := "user"; cfg_password := None;
                   cfg_key_filename := Some "/home/user/.ssh/id_rsa"; cfg_port := 22 |} in
  let s' := snd (Server.disconnect s) in
  net s' = NetClose 0 :: net s
  /\ client (heap s' 0) = None
  /\ glob_ssh_client s' = None
  /\ glob_slurm_client s' = None
  /\ Server.get_connection_status good_host s'
     = (Ok (Server.status_reply "disconnected" config), s').
Proof.
  exact (disconnect_releases good_host
           (snd (call good_host (OpSinfo None None None) initial_state)) 0 0 _
           eq_refl eq_refl eq_refl).
Defined.



(** ** Open sessions *)

Section AccountingFacts.
Variable h : Host.

Lemma remove_handle_single (c : handle) : remove_handle c [c] = [].
Proof. cbn. now rewrite Nat.eqb_refl. Qed.

Lemma attached_created_slurm (config : Config) (s : State) :
  glob_slurm_client (client_attached (next_addr s) (object_created config s))
  = glob_slurm_client s.
Proof. reflexivity. Qed.

Lemma attached_created_net (config : Config) (s : State) :
  net (client_attached (next_addr s) (object_created config s)) = net s.
Proof. reflexivity. Qed.

Lemma accounting_cases (s : State) :
  session_accounting h s ->
  (exists sc c,
     glob_ssh_client s = Some (ssh_client sc) /\ glob_slurm_client s = Some sc
     /\ client (heap s (ssh_client sc)) = Some c /\ open_sessions h (net s) = [c])
  \/ (glob_slurm_client s = None /\ open_sessions h (net s) = []).
Proof.
  unfold session_accounting. destruct (glob_slurm_client s) as [sc|]; [|auto].
  intros [Ha [c [Hc Ho]]]. left. exists sc, c. auto.
Qed.

Lemma accounting_no_slurm (s : State) :
  glob_slurm_client s = None -> open_sessions h (net s) = [] -> session_accounting h s.
Proof. unfold session_accounting. now intros ->. Qed.

Lemma command_tool_accounting (op : operation) (s : State) :
  session_accounting h s -> session_accounting h (snd (command_tool h op s)).
Proof.
  intros Hacc. rewrite command_tool_unfold.
  destruct (accounting_cases s Hacc) as [[sc [c [Ha [Hsc [Hc Ho]]]]]|[Hnone Ho]].
  - rewrite (ensure_connection_reuse h s _ sc Ha Hsc), Hc.
    destruct (net_exec h (net s) c (command_of op) 30); cbn [snd];
      unfold session_accounting;
      cbn [record_event glob_slurm_client glob_ssh_client heap net open_sessions];
      rewrite Hsc; eauto.
  - rewrite ensure_connection_cases by auto.
    destruct (Server.get_connection_config h) as [config|e]; [|exact Hacc].
    destruct (SSHClient.build_kwargs (config_object config)) as [kw|e];
      [|cbn [snd]; apply accounting_no_slurm;
        [now rewrite attached_created_slurm | now rewrite attached_created_net]].
    cbv zeta. destruct (net_connect h (net s) (next_handle s) kw) as [msg|] eqn:Hn.
    + cbn [snd]. apply accounting_no_slurm.
      * cbn [record_event glob_slurm_client]. now rewrite attached_created_slurm.
      * cbn [record_event net open_sessions]. now rewrite attached_created_net, Hn.
    + cbn [set_glob_slurm_client snd heap record_event ssh_client].
      rewrite client_attached_heap. cbn [client set_client_field].
      match goal with
      | |- context [net_exec h ?l ?c ?cmd ?t] => destruct (net_exec h l c cmd t)
      end; cbn [snd];
        unfold session_accounting;
        cbn [record_event glob_slurm_client glob_ssh_client heap net open_sessions
             ssh_client];
        (split; [reflexivity|]); exists (next_handle s);
        rewrite client_attached_heap, attached_created_net, Hn, Ho; split; reflexivity.
Qed.

Lemma get_connection_status_accounting (s : State) :
  session_accounting h s -> session_accounting h (snd (Server.get_connection_status h s)).
Proof.
  intros Hacc. rewrite get_connection_status_unfold.
  destruct (Server.get_connection_config h) as [config|e]; [|exact Hacc].
  destruct (glob_ssh_client s) as [a|] eqn:Ha; [|exact Hacc].
  destruct (client (heap s a)) as [c|]; [|exact Hacc].
  destruct (net_exec h (net s) c "echo 'connection test'" 30); exact Hacc.
Qed.

Lemma server_disconnect_accounting (s : State) :
  session_accounting h s -> session_accounting h (snd (Server.disconnect s)).
Proof.
  intros Hacc. rewrite server_disconnect_unfold. cbn [snd].
  destruct (glob_ssh_client s) as [a|] eqn:Ha; [|exact Hacc].
  rewrite disconnect_unfold.
  destruct (accounting_cases s Hacc) as [[sc [c [Ha' [Hsc [Hc Ho]]]]]|[Hnone Ho]].
  - assert (a = ssh_client sc) by congruence. subst a. rewrite Hc.
    apply accounting_no_slurm; [reflexivity|].
    cbn [set_glob_slurm_client set_glob_ssh_client set_client record_event snd net
         open_sessions].
    rewrite Ho. apply remove_handle_single.
  - destruct (client (heap s a)) as [c|]; apply accounting_no_slurm; try reflexivity.
    + cbn [set_glob_slurm_client set_glob_ssh_client set_client record_event snd net
           open_sessions].
      now rewrite Ho.
    + exact Ho.
Qed.

Lemma call_accounting (op : operation) (s : State) :
  session_accounting h s -> session_accounting h (snd (call h op s)).
Proof.
  intros Hacc. destruct (runs_command op) eqn:Hop.
  - rewrite (call_command_tool h op s Hop). now apply command_tool_accounting.
  - destruct op; try discriminate.
    + now apply get_connection_status_accounting.
    + now apply server_disconnect_accounting.
Qed.

Lemma reachable_accounting (s : State) : reachable h s -> session_accounting h s.
Proof.
  induction 1 as [|op s Hs IH]; [reflexivity | now apply call_accounting].
Qed.

(** The events of [ensure_connection] run no command and close nothing. *)
Lemma connect_events_run_nothing (command_ : string) (evs : list io_event) :
  connect_events h evs -> runs_at_most 0 command_ evs.
Proof.
  intros [->|[c [config [kw [_ [_ ->]]]]]]; split; cbn; auto.
Qed.

End AccountingFacts.

(** X13.  At most one session is open at any time.  In every state the
    server reaches, the transports that were connected and not closed since
    are at most one; there is none when there is no global [SlurmClient],
    and otherwise it is the transport of the SSH client that the global
    [SlurmClient] wraps. *)
Theorem at_most_one_session (h : Host) (s : State) :
  reachable h s ->
  List.length (open_sessions h (net s)) <= 1
  /\ (glob_slurm_client s = None -> open_sessions h (net s) = [])
  /\ (forall sc, glob_slurm_client s = Some sc ->
                 exists c, client (heap s (ssh_client sc)) = Some c
                           /\ open_sessions h (net s) = [c]).
Proof.
  intros Hs. apply reachable_accounting in Hs.
  destruct (accounting_cases h s Hs) as [[sc [c [Ha [Hsc [Hc Ho]]]]]|[Hnone Ho]].
  - rewrite Ho. split; [cbn; lia|]. split; [congruence|].
    intros sc' Hsc'. assert (sc' = sc) by congruence. subst sc'. eauto.
  - rewrite Ho. split; [cbn; lia|]. split; [reflexivity|]. congruence.
Qed.

Lemma at_most_one_session_witness :
  let s := snd (call good_host (OpSqueue None None None None)
                  (snd (call good_host OpDisconnect
                          (snd (call good_host (OpSinfo None None None) initial_state))))) in
  List.length (open_sessions good_host (net s)) <= 1
  /\ (glob_slurm_client s = None -> open_sessions good_host (net s) = [])
  /\ (forall sc, glob_slurm_client s = Some sc ->
                 exists c, client (heap s (ssh_client sc)) = Some c
                           /\ open_sessions good_host (net s) = [c]).
Proof.
  exact (at_most_one_session good_host _
           (reachable_call good_host _ _
              (reachable_call good_host _ _
                 (reachable_call good_host (OpSinfo None None None) initial_state
                    (reachable_initial good_host))))).
Defined.

(** X14.  A tool other than disconnect sends at most one command to the
    transport, the command is the text its builder made (for the status
    tool, the probe), it is sent with the default timeout of 30, and the
    tool closes no transport. *)
Theorem tool_runs_its_command (h : Host) (op : operation) (s : State) :
  op <> OpDisconnect ->
  exists evs,
    net (snd (call h op s)) = (evs ++ net s)%list
    /\ runs_at_most 1 (command_of op) evs.
Proof.
  intros Hop.
  assert (Hexec : forall c e1, runs_at_most 0 (command_of op) e1 ->
            runs_at_most 1 (command_of op) (NetExec c (command_of op) 30 :: e1)).
  { intros c e1 [H1 H2]. split.
    - cbn [forallb exec_ok]. now rewrite String.eqb_refl, H1.
    - unfold count_execs in *. cbn [filter is_exec List.length]. lia. }
  assert (Hweak : forall e1, runs_at_most 0 (command_of op) e1 ->
            runs_at_most 1 (command_of op) e1).
  { intros e1 [H1 H2]. split; [exact H1 | lia]. }
  destruct (runs_command op) eqn:Hrun.
  - rewrite (call_command_tool h op s Hrun), command_tool_unfold.
    destruct (ensure_connection_emits h s) as [e1 [E1 H1]].
    apply (connect_events_run_nothing h (command_of op)) in H1.
    destruct (Server.ensure_connection h s) as [[sc|e] s1]; cbn [snd] in E1;
      [|exists e1; auto].
    destruct (client (heap s1 (ssh_client sc))) as [c|]; [|exists e1; auto].
    destruct (net_exec h (net s1) c (command_of op) 30);
      exists (NetExec c (command_of op) 30 :: e1);
      (split; [cbn [snd record_event net app]; now rewrite E1 | now apply Hexec]).
  - destruct op; try discriminate; [|congruence].
    cbn [call]. rewrite get_connection_status_unfold.
    assert (H0 : runs_at_most 0 (command_of OpGetConnectionStatus) []) by (split; cbn; auto).
    destruct (Server.get_connection_config h) as [config|e]; [|exists []; auto].
    destruct (glob_ssh_client s) as [a|]; [|exists []; auto].
    destruct (client (heap s a)) as [c|]; [|exists []; auto].
    destruct (net_exec h (net s) c "echo 'connection test'" 30);
      exists [NetExec c "echo 'connection test'" 30];
      (split; [reflexivity | now apply (Hexec c [])]).
Qed.

Lemma tool_runs_its_command_witness :
  exists evs,
    net (snd (call good_host (OpSacct (Some "42") None None None None) initial_state))
    = (evs ++ net initial_state)%list
    /\ runs_at_most 1 (Command.sacct (Some "42") None None None None) evs.
Proof.
  apply (tool_runs_its_command good_host (OpSacct (Some "42") None None None None)
           initial_state).
  discriminate.
Defined.

(** Membership in a short explicit list. *)
Ltac in_list := cbn; repeat (first [left; reflexivity | right]).

(** X15.  Every tool call returns a dictionary, never an exception; the
    dictionary has a status entry, whose value is success or error for the
    command tools and the disconnect tool and connected, disconnected or
    error for the status tool, and its keys are one of the few key lists of
    that tool. *)
Theorem reply_shape (h : Host) (op : operation) (s : State) :
  exists d st,
    fst (call h op s) = Ok d
    /\ In (dict_keys d) (reply_shapes op)
    /\ dict_get d "status" = Some (VStr st)
    /\ In st (status_values op).
Proof.
  destruct (runs_command op) eqn:Hop.
  - rewrite (call_command_tool h op s Hop), command_tool_unfold.
    destruct (Server.ensure_connection h s) as [[sc|e] s1];
      [destruct (client (heap s1 (ssh_client sc))) as [c|];
       [destruct (net_exec h (net s1) c (command_of op) 30) as [out err code|msg];
        [unfold reply_of; cbn [success]; destruct (Z.eqb code 0)|]|]|];
      destruct op; try discriminate Hop;
      (do 2 eexists; split; [reflexivity|]; split; [in_list|];
       split; [reflexivity | in_list]).
  - destruct op; try discriminate Hop; cbn [call].
    + rewrite get_connection_status_unfold.
      destruct (Server.get_connection_config h) as [config|e];
        [destruct (glob_ssh_client s) as [a|];
         [destruct (client (heap s a)) as [c|];
          [destruct (net_exec h (net s) c "echo 'connection test'" 30)
             as [out err code|msg]; [destruct (Z.eqb code 0)|]|]|]|];
        (do 2 eexists; split; [reflexivity|]; split; [in_list|];
         split; [reflexivity | in_list]).
    + rewrite server_disconnect_unfold.
      do 2 eexists; split; [reflexivity|]; split; [in_list|];
        split; [reflexivity | in_list].
Qed.

(** X16.  The exit handler that [main] registers leaves nothing open: run
    in any state the server reaches, it never raises, and afterwards no
    session is open on the transport and both globals are cleared. *)
Theorem exit_handler_closes_session (h : Host) (s : State) :
  reachable h s ->
  let s' := snd (exit_handler s) in
  (exists r, fst (exit_handler s) = Ok r)
  /\ open_sessions h (net s') = []
  /\ glob_ssh_client s' = None
  /\ glob_slurm_client s' = None.
Proof.
  intros Hs. cbv zeta. apply reachable_accounting in Hs.
  unfold exit_handler, bind, get_glob_ssh_client.
  destruct (glob_ssh_client s) as [a|] eqn:Ha.
  - pose proof (server_disconnect_accounting h s Hs) as Hacc.
    rewrite server_disconnect_unfold in *. rewrite Ha in *. cbn [fst snd] in *.
    assert (Hslurm : glob_slurm_client
                       (snd (set_glob_slurm_client None
                               (snd (set_glob_ssh_client None
                                       (snd (SSHClient.disconnect a s)))))) = None)
      by reflexivity.
    unfold session_accounting in Hacc. rewrite Hslurm in Hacc.
    split; [eexists; reflexivity|]. split; [exact Hacc|]. split; reflexivity.
  - cbn [fst snd]. destruct (accounting_cases h s Hs) as [[sc [c [Ha' _]]]|[Hnone Ho]];
      [congruence|].
    split; [eexists; reflexivity|]. auto.
Qed.

Lemma exit_handler_closes_session_witness :
  let s := snd (call good_host (OpSinfo None None None) initial_state) in
  let s' := snd (exit_handler s) in
  (exists r, fst (exit_handler s) = Ok r)
  /\ open_sessions good_host (net s') = []
  /\ glob_ssh_client s' = None
  /\ glob_slurm_client s' = None.
Proof.
  exact (exit_handler_closes_session good_host _
           (reachable_call good_host (OpSinfo None None None) initial_state
              (reachable_initial good_host))).
Defined.

(** * Flags of the cluster information and accounting commands *)

Section FlagFacts.
Import Py.
Variable flags : list string.

Lemma flag_free_of_filter (v : string) :
  flag_free_of flags (Some v) = true ->
  filter (is_flag_of flags) (split_space v) = [].
Proof.
  unfold flag_free_of. induction (split_space v) as [|t ts IH]; simpl; [reflexivity|].
  rewrite andb_true_iff, negb_true_iff. intros [Ht Hts]. rewrite Ht. auto.
Qed.

(** One optional filter of a builder, seen on the flag tokens. *)
Lemma flags_of_if_truthy (o : option string) (flag : string) (cmd : list string) :
  is_flag_of flags flag = true -> split_space flag = [flag] ->
  flag_free_of flags o = true ->
  filter (is_flag_of flags)
    (flat_map split_space (if_truthy o (fun v => extend cmd [flag; v]) cmd))
  = (filter (is_flag_of flags) (flat_map split_space cmd) ++ flag_if o flag)%list.
Proof.
  intros Hflag Hsplit Hfree. unfold flag_if.
  destruct o as [[|c v]|]; cbn [if_truthy truthy]; rewrite ?app_nil_r; try reflexivity.
  unfold extend. rewrite flat_map_app, filter_app. f_equal.
  cbn [flat_map]. rewrite Hsplit, app_nil_r, filter_app.
  rewrite (flag_free_of_filter _ Hfree). cbn [filter app]. now rewrite Hflag.
Qed.

Hypothesis quote_start : forall t, is_flag_of flags (String "034" t) = false.
Hypothesis quote_end : forall t, is_flag_of flags (t ++ dquote) = false.

Lemma filter_of_map_last_nil (l : list string) :
  filter (is_flag_of flags) l = [] ->
  filter (is_flag_of flags) (map_last (fun t => t ++ dquote) l) = [].
Proof.
  induction l as [|x l IH]; simpl; [reflexivity|].
  destruct (is_flag_of flags x) eqn:Hx; [discriminate|]. intros Hl.
  destruct l as [|y l].
  - simpl. now rewrite quote_end.
  - cbn [filter]. rewrite Hx. apply IH, Hl.
Qed.

(** A format value in quotes contributes no flag token. *)
Lemma quoted_format_no_flag_of (f : string) :
  flag_free_of flags (Some f) = true ->
  filter (is_flag_of flags) (split_space (dquote ++ f ++ dquote)) = [].
Proof.
  intros Hf. apply flag_free_of_filter in Hf.
  change (dquote ++ f ++ dquote) with (String "034" (f ++ dquote)).
  cbn [split_space]. change (Ascii.eqb "034" " ") with false. cbv iota.
  rewrite split_space_quote_end.
  pose proof (filter_of_map_last_nil _ Hf) as Hl.
  destruct (map_last (fun t => t ++ dquote) (split_space f)) as [|t ts];
    [cbn [filter]; now rewrite quote_start|].
  cbn [filter] in *. rewrite (quote_start t).
  destruct (is_flag_of flags t); [discriminate | assumption].
Qed.

End FlagFacts.

Lemma sinfo_flag_inv (t : string) :
  is_flag_of sinfo_flags t = true -> t = "-o" \/ t = "-p" \/ t = "-n".
Proof.
  unfold is_flag_of, sinfo_flags. cbn [existsb]. rewrite !orb_true_iff, !String.eqb_eq.
  intuition discriminate.
Qed.

Lemma sinfo_quote_start (t : string) : is_flag_of sinfo_flags (String "034" t) = false.
Proof.
  destruct (is_flag_of sinfo_flags (String "034" t)) eqn:E; [|reflexivity].
  apply sinfo_flag_inv in E. intuition discriminate.
Qed.

Lemma sinfo_quote_end (t : string) : is_flag_of sinfo_flags (t ++ Py.dquote) = false.
Proof.
  destruct (is_flag_of sinfo_flags (t ++ Py.dquote)) eqn:E; [|reflexivity].
  apply sinfo_flag_inv in E.
  destruct t as [|a [|b [|c t]]]; simpl in E; intuition discriminate.
Qed.

(** X17.  The cluster information command has each flag once and in a fixed
    order.  Count a filter as given when it is a non-empty string and let no
    given value contain one of [-o], [-p], [-n] as a space-delimited token.
    Then the flag tokens of the command text are [-o], then [-p] if the
    partition is given, then [-n] if the node list is given. *)
Theorem sinfo_flag_order (partition format_str nodes : option string) :
  flag_free_of sinfo_flags partition = true ->
  flag_free_of sinfo_flags format_str = true ->
  flag_free_of sinfo_flags nodes = true ->
  flag_tokens_of sinfo_flags (Command.sinfo partition format_str nodes)
  = ("-o" :: flag_if partition "-p" ++ flag_if nodes "-n")%list.
Proof.
  intros Hp Hf Hn. unfold flag_tokens_of, Command.sinfo, Command.sinfo_cmd.
  rewrite split_space_join.
  - rewrite !flags_of_if_truthy by (assumption || reflexivity).
    assert (Hhead : filter (is_flag_of sinfo_flags)
              (flat_map Py.split_space
                 (Py.if_truthy format_str
                    (fun f => Py.extend ["sinfo"] ["-o"; Py.dquote ++ f ++ Py.dquote])
                    (Py.extend ["sinfo"]
                       ["-o"; Py.dquote ++ Command.sinfo_default_format ++ Py.dquote])))
              = ["-o"]).
    { destruct format_str as [[|c f]|]; cbn [Py.if_truthy]; try reflexivity.
      unfold Py.extend. cbn [app flat_map]. rewrite app_nil_r, !filter_app.
      rewrite (quoted_format_no_flag_of sinfo_flags sinfo_quote_start sinfo_quote_end _ Hf).
      reflexivity. }
    rewrite Hhead. now rewrite <- !app_assoc.
  - repeat apply if_truthy_nonempty. destruct format_str as [[|c f]|]; discriminate.
Qed.

Lemma sinfo_flag_order_witness :
  flag_tokens_of sinfo_flags
    (Command.sinfo (Some "gpu") (Some "%.10P %.5a") (Some "node01,node02"))
  = ["-o"; "-p"; "-n"].
Proof.
  exact (sinfo_flag_order (Some "gpu") (Some "%.10P %.5a") (Some "node01,node02")
           eq_refl eq_refl eq_refl).
Defined.

(** X18.  The accounting command has each flag once and in a fixed order.
    Count a filter as given when it is a non-empty string and let no given
    value contain one of [--format], [-j], [-u], [-S], [-E] as a
    space-delimited token.  Then the flag tokens of the command text are
    [--format], then [-j], [-u], [-S] and [-E] for the job id, the user, the
    start time and the end time that are given, in this order. *)
Theorem sacct_flag_order (job_id user start_time end_time format_str : option string) :
  flag_free_of sacct_flags job_id = true ->
  flag_free_of sacct_flags user = true ->
  flag_free_of sacct_flags start_time = true ->
  flag_free_of sacct_flags end_time = true ->
  flag_free_of sacct_flags format_str = true ->
  flag_tokens_of sacct_flags (Command.sacct job_id user start_time end_time format_str)
  = ("--format" :: flag_if job_id "-j" ++ flag_if user "-u"
       ++ flag_if start_time "-S" ++ flag_if end_time "-E")%list.
Proof.
  intros Hj Hu Hs He Hf. unfold flag_tokens_of, Command.sacct, Command.sacct_cmd.
  rewrite split_space_join.
  - rewrite !flags_of_if_truthy by (assumption || reflexivity).
    assert (Hhead : filter (is_flag_of sacct_flags)
              (flat_map Py.split_space
                 (Py.if_truthy format_str
                    (fun f => Py.extend ["sacct"] ["--format"; f])
                    (Py.extend ["sacct"] ["--format"; Command.sacct_default_format])))
              = ["--format"]).
    { destruct format_str as [[|c f]|]; cbn [Py.if_truthy]; try reflexivity.
      unfold Py.extend. cbn [app flat_map]. rewrite app_nil_r, !filter_app.
      rewrite (flag_free_of_filter sacct_flags _ Hf). reflexivity. }
    rewrite Hhead. now rewrite <- !app_assoc.
  - repeat apply if_truthy_nonempty. destruct format_str as [[|c f]|]; discriminate.
Qed.

Lemma sacct_flag_order_witness :
  flag_tokens_of sacct_flags
    (Command.sacct (Some "12345") None (Some "2023-01-01") (Some "") (Some "JobID,State"))
  = ["--format"; "-j"; "-S"].
Proof.
  exact (sacct_flag_order (Some "12345") None (Some "2023-01-01") (Some "")
           (Some "JobID,State") eq_refl eq_refl eq_refl eq_refl eq_refl).
Defined.

(** * The two variants of the node query *)

(** X19.  The node query asks for all nodes exactly when no node name is
    given, where an empty name counts as not given; with any other name the
    command is the single-node form followed by the name, which is never
    the text of the all-nodes form. *)
Theorem show_node_variants (node_name : option string) :
  (Command.scontrol_show_node node_name = "scontrol show nodes"
   <-> node_name = None \/ node_name = Some "")
  /\ (forall n, node_name = Some n -> n <> "" ->
                Command.scontrol_show_node node_name = "scontrol show node " ++ n).
Proof.
  split; [split|].
  - destruct node_name as [[|c v]|]; auto.
    unfold Command.scontrol_show_node. cbn. intros H. discriminate H.
  - intros [->| ->]; reflexivity.
  - intros n -> Hn. destruct n as [|c v]; [congruence | reflexivity].
Qed.

Lemma show_node_variants_witness :
  Command.scontrol_show_node (Some "") = "scontrol show nodes"
  /\ Command.scontrol_show_node (Some "node01") = "scontrol show node node01".
Proof.
  split.
  - exact (proj2 (proj1 (show_node_variants (Some ""))) (or_intror eq_refl)).
  - apply (proj2 (show_node_variants (Some "node01")) "node01" eq_refl). discriminate.
Defined.
